(** * Portfolio tracker (main.py): ledger store, market-data lookups,
    valuation and the add form, as a shallow embedding.

  The Python program keeps its ledger as a list of dicts, reads and
  writes it as JSON, looks quotes and one exchange rate up through
  memoised functions and sums the holdings on every script run.  The
  definitions below follow main.py function by function and keep its
  names. *)

From Stdlib Require Import ZArith QArith Floats List Bool Lia.
From stdpp Require Import gmap list option strings.

Set Default Proof Using "Type".
Set Warnings "-inexact-float".

(** ** Text

  A Python [str] is a sequence of code points; [len], [strip] and
  [zfill] count and test code points, so the model is a list of code
  points.  Literals are written as UTF-8 and decoded once. *)

Abbreviation str := (list N).

Module Text.

Definition cont (b : N) : N := N.land b 63.

(** UTF-8 decoding of the bytes of a literal (well-formed input). *)
Fixpoint decode (bs : list N) : str :=
  match bs with
  | [] => []
  | b0 :: r0 =>
      if (b0 <? 128)%N then b0 :: decode r0
      else if (b0 <? 224)%N then
        match r0 with
        | b1 :: r1 => (N.shiftl (N.land b0 31) 6 + cont b1)%N :: decode r1
        | _ => []
        end
      else if (b0 <? 240)%N then
        match r0 with
        | b1 :: b2 :: r2 =>
            (N.shiftl (N.land b0 15) 12 + N.shiftl (cont b1) 6 + cont b2)%N
              :: decode r2
        | _ => []
        end
      else
        match r0 with
        | b1 :: b2 :: b3 :: r3 =>
            (N.shiftl (N.land b0 7) 18 + N.shiftl (cont b1) 12
             + N.shiftl (cont b2) 6 + cont b3)%N :: decode r3
        | _ => []
        end
  end.

Fixpoint bytes (s : string) : list N :=
  match s with
  | EmptyString => []
  | String a r => Ascii.N_of_ascii a :: bytes r
  end.

Definition utf8 (s : string) : str := decode (bytes s).

(** [str.isspace] for one character, the table behind [str.strip()]. *)
Definition is_space (c : N) : bool :=
  ((9 <=? c) && (c <=? 13) || (28 <=? c) && (c <=? 32)
   || (c =? 133) || (c =? 160) || (c =? 5760)
   || (8192 <=? c) && (c <=? 8202)
   || (c =? 8232) || (c =? 8233) || (c =? 8239) || (c =? 8287)
   || (c =? 12288))%N.

Fixpoint lstrip (s : str) : str :=
  match s with
  | c :: r => if is_space c then lstrip r else s
  | [] => []
  end.

Definition rstrip (s : str) : str := rev (lstrip (rev s)).

(** [s.strip()] *)
Definition strip (s : str) : str := rstrip (lstrip s).

Definition zero : N := 48.
Definition is_sign (c : N) : bool := ((c =? 43) || (c =? 45))%N.

(** [s.zfill(width)]: left padding with the digit 0, after a leading
    sign when there is one; a string already wide enough is returned
    as it is. *)
Definition zfill (width : nat) (s : str) : str :=
  if (width <=? length s)%nat then s
  else
    let pad := replicate (width - length s) zero in
    match s with
    | c :: r => if is_sign c then c :: pad ++ r else pad ++ s
    | [] => pad
    end.

(** [s == t] on strings. *)
Definition eqb (s t : str) : bool := bool_decide (s = t).

(** Truthiness of a string: [if symbol]. *)
Definition truthy (s : str) : bool :=
  match s with [] => false | _ => true end.

End Text.

(** The string constants of main.py. *)
Definition STOCK : str := Eval vm_compute in Text.utf8 "股票"%string.
Definition ETF : str := Eval vm_compute in Text.utf8 "ETF基金"%string.
Definition A_SHARE : str := Eval vm_compute in Text.utf8 "A股"%string.
Definition HK : str := Eval vm_compute in Text.utf8 "港股"%string.
Definition HKD : str := Eval vm_compute in Text.utf8 "HKD"%string.
Definition CNY : str := Eval vm_compute in Text.utf8 "CNY"%string.
Definition STOCK_PREFIX : str := Eval vm_compute in Text.utf8 "股票 "%string.
Definition HK_PREFIX : str := Eval vm_compute in Text.utf8 "港股 "%string.
Definition ETF_PREFIX : str := Eval vm_compute in Text.utf8 "ETF基金 "%string.

Definition k_symbol : str := Eval vm_compute in Text.utf8 "symbol"%string.
Definition k_type : str := Eval vm_compute in Text.utf8 "type"%string.
Definition k_market : str := Eval vm_compute in Text.utf8 "market"%string.
Definition k_shares : str := Eval vm_compute in Text.utf8 "shares"%string.
Definition k_cost_price : str := Eval vm_compute in Text.utf8 "cost_price"%string.
Definition k_name : str := Eval vm_compute in Text.utf8 "name"%string.
Definition k_current_price : str :=
  Eval vm_compute in Text.utf8 "current_price"%string.
Definition k_currency : str := Eval vm_compute in Text.utf8 "currency"%string.

(** ** Numbers

  The program's arithmetic is written once and runs on whatever
  numbers the ledger holds (Python [int] and [float]).  [PyNum] is
  that interface; it is instantiated with exact rationals and with
  IEEE binary64, the representation of a Python [float].  Its
  operations are total: they say what a computation yields.  Whether
  Python carries the computation out, or raises on an int too large
  for a float, is what the module [Python] further down models. *)

Class PyNum (num : Type) := {
  num_of_Z : Z -> num;
  num_add : num -> num -> num;
  num_sub : num -> num -> num;
  num_mul : num -> num -> num;
  (** the quotient for a divisor that is not zero *)
  num_quot : num -> num -> num;
  (** [x == y], [x < y], [x <= y] *)
  num_eqb : num -> num -> bool;
  num_ltb : num -> num -> bool;
  num_leb : num -> num -> bool;
}.

(** What the add form's validation needs of the order. *)
Class PyNumOrder (num : Type) `{PyNum num} := {
  num_le0_not_gt0 :
    forall x, num_leb x (num_of_Z 0) = true -> num_ltb (num_of_Z 0) x = false
}.

#[export] Instance Q_num : PyNum Q := {|
  num_of_Z := inject_Z;
  num_add := Qplus;
  num_sub := Qminus;
  num_mul := Qmult;
  num_quot := Qdiv;
  num_eqb := Qeq_bool;
  num_ltb := fun x y => negb (Qle_bool y x);
  num_leb := Qle_bool;
|}.

(** An integer as a float, rounded to the nearest one. *)
Definition float_of_Z (z : Z) : float :=
  SF2Prim (binary_normalize prec emax z 0 false).

#[export] Instance float_num : PyNum float := {|
  num_of_Z := float_of_Z;
  num_add := PrimFloat.add;
  num_sub := PrimFloat.sub;
  num_mul := PrimFloat.mul;
  num_quot := PrimFloat.div;
  num_eqb := PrimFloat.eqb;
  num_ltb := PrimFloat.ltb;
  num_leb := PrimFloat.leb;
|}.

(** [round(x, 3)], which the program applies to fund prices and costs. *)
Class PyRound (num : Type) := {
  py_round3 : num -> num;
}.

(** [a / b] rounded to the nearest integer, ties to the even one
    ([0 < b]). *)
Definition round_half_even (a b : Z) : Z :=
  let q := (a / b)%Z in
  match (2 * (a mod b) ?= b)%Z with
  | Lt => q
  | Gt => (q + 1)%Z
  | Eq => if Z.even q then q else (q + 1)%Z
  end.

Definition Qround3 (x : Q) : Q :=
  Qmake (round_half_even (Qnum x * 1000) (Zpos (Qden x))) 1000.

#[export] Instance Q_round : PyRound Q := {| py_round3 := Qround3 |}.

(** On binary64 the result is the float nearest to the decimal that
    the exact value of [x] rounds to.  From [2^43] on the floats are
    more than [0.001] apart and [x] is that float; below, the rounded
    count of thousandths is an exact float and one correctly rounded
    division gives the result.  Zeros, infinities and NaN are returned
    as they are. *)
Definition float_round3 (x : float) : float :=
  match Prim2SF x with
  | S754_finite s m e =>
      if PrimFloat.ltb (PrimFloat.abs x) 8796093022208%float then
        let k := if (0 <=? e)%Z
                 then (Zpos m * 1000 * 2 ^ e)%Z
                 else round_half_even (Zpos m * 1000) (2 ^ (- e)) in
        let r := PrimFloat.div (float_of_Z k) 1000%float in
        if s then PrimFloat.opp r else r
      else x
  | _ => x
  end.

#[export] Instance float_round : PyRound float := {| py_round3 := float_round3 |}.

(** ** Exceptions and results *)

Inductive exn :=
  | KeyError (k : str)
  | TypeError
  | ValueError
  | ZeroDivisionError
  | OverflowError
  | ProviderError.

Inductive result (A : Type) :=
  | Ok (a : A)
  | Raise (e : exn).
Arguments Ok {A} a.
Arguments Raise {A} e.

#[export] Instance result_ret : MRet result := @Ok.
#[export] Instance result_bind : MBind result :=
  fun A B f m => match m with Ok a => f a | Raise e => Raise e end.

(** [for x in xs: f(x)], stopping at the first exception. *)
Fixpoint for_each {A B} (f : A -> result B) (xs : list A) : result (list B) :=
  match xs with
  | [] => Ok []
  | x :: r => y ← f x; ys ← for_each f r; Ok (y :: ys)
  end.

(** ** JSON values and ledger entries

  A ledger entry is a Python dict read from and written to JSON; its
  keys are optional.  The values the program stores are text and
  numbers; [JNull] stands for JSON's null. *)

Inductive jvalue (num : Type) :=
  | JNull
  | JNum (n : num)
  | JStr (s : str).
Arguments JNull {num}.
Arguments JNum {num} n.
Arguments JStr {num} s.

Section Dict.
Context {V : Type}.

(** [d.setdefault(k, v)]: writes only when the key is absent. *)
Definition setdefault (k : str) (v : V) (d : gmap str V) : gmap str V :=
  match d !! k with
  | Some _ => d
  | None => <[k := v]> d
  end.

(** [d[k]] *)
Definition getitem (k : str) (d : gmap str V) : result V :=
  match d !! k with
  | Some v => Ok v
  | None => Raise (KeyError k)
  end.

End Dict.

(** A memoised value and the time it was stored at, in seconds. *)
Record cached (V : Type) := {
  stored_at : Z;
  stored : V;
}.
Arguments stored_at {V} _.
Arguments stored {V} _.

Section Program.
Context {num : Type} `{PyNum num}.

Local Abbreviation asset := (gmap str (jvalue num)).

Definition zero : num := num_of_Z 0.
Definition hundred : num := num_of_Z 100.

(** The literal [m / 10^e], as in [0.92]. *)
Definition decimal (m : Z) (e : Z) : num :=
  num_quot (num_of_Z m) (num_of_Z (10 ^ e)).

(** [v == 'text'] for a value read from a dict. *)
Definition is_text (v : jvalue num) (s : str) : bool :=
  match v with
  | JStr t => Text.eqb t s
  | _ => false
  end.

(** Arithmetic on values read from a dict: anything but two numbers
    is a [TypeError].  (Python repeats a text multiplied by an int
    instead; the subtraction that follows in the loop body then
    raises the [TypeError], before anything else is written.) *)
Definition as_num (v : jvalue num) : result num :=
  match v with
  | JNum n => Ok n
  | _ => Raise TypeError
  end.

Definition py_mul (x y : jvalue num) : result num :=
  a ← as_num x; b ← as_num y; Ok (num_mul a b).

(** [x / y]: a zero divisor raises. *)
Definition py_div (x y : num) : result num :=
  if num_eqb y zero then Raise ZeroDivisionError else Ok (num_quot x y).

(** *** Ledger store (load_portfolio, save_portfolio)

    [DATA_FILE] holds a JSON list of objects, or does not exist
    ([None]).  [json.dump] followed by [json.load] gives back the
    document that was written, so the file is modelled by the document
    itself.  The ledger is taken to hold what JSON can write: text,
    null and Python numbers.  ([json.dump] raises on anything else, a
    numpy scalar passed through from a spot table for one, and then
    leaves the file cut short; that is outside this model.) *)

Definition file := option (list asset).

(** The body of the migration loop, for one item. *)
Definition migrate (item : asset) : result asset :=
  let item := setdefault k_type (JStr STOCK) item in
  market ← getitem k_market item;
  Ok (setdefault k_currency
        (JStr (if is_text market HK then HKD else CNY)) item).

Definition load_portfolio (DATA_FILE : file) : result (list asset) :=
  match DATA_FILE with
  | Some portfolio => for_each migrate portfolio
  | None => Ok []
  end.

Definition save_portfolio (portfolio : list asset) : file :=
  Some portfolio.

(** *** calculate_return *)

Definition calculate_return (cost_price current_price : num) : result num :=
  if num_eqb cost_price zero then Ok zero
  else
    q ← py_div (num_sub current_price cost_price) cost_price;
    Ok (num_mul q hundred).

(** *** Valuation (the display loop of main)

    The local variables of one iteration. *)
Record valuation := {
  market_value : num;
  cost_value : num;
  return_rate : num;
  profit : num;
  market_value_cny : num;
  cost_value_cny : num;
  profit_cny : num;
}.

(** One row of [display_data]; the cells hold the values the format
    strings are applied to. *)
Record row := {
  row_type : jvalue num;
  row_name : jvalue num;
  row_symbol : jvalue num;
  row_market : jvalue num;
  row_shares : jvalue num;
  row_cost_price : jvalue num;
  row_current_price : jvalue num;
  row_return_rate : num;
  row_market_value_cny : num;
  row_profit_cny : num;
}.

Record totals := {
  total_assets : num;
  total_investment : num;
  total_profit : num;
}.

(** The two [setdefault] calls that open an iteration; they write to
    the entry held by the session's ledger. *)
Definition ensure_fields (a : asset) : asset :=
  setdefault k_currency (JStr CNY) (setdefault k_type (JStr STOCK) a).

(** The computation of one iteration, on the entry after
    [ensure_fields]. *)
Definition valuate (hkd_to_cny : num) (a : asset) : result valuation :=
  shares ← getitem k_shares a;
  current_price ← getitem k_current_price a;
  market_value ← py_mul shares current_price;
  cost_price ← getitem k_cost_price a;
  cost_value ← py_mul shares cost_price;
  c ← as_num cost_price;
  p ← as_num current_price;
  return_rate ← calculate_return c p;
  let profit := num_sub market_value cost_value in
  currency ← getitem k_currency a;
  Ok (if is_text currency HKD then
        {| market_value := market_value; cost_value := cost_value;
           return_rate := return_rate; profit := profit;
           market_value_cny := num_mul market_value hkd_to_cny;
           cost_value_cny := num_mul cost_value hkd_to_cny;
           profit_cny := num_mul profit hkd_to_cny |}
      else
        {| market_value := market_value; cost_value := cost_value;
           return_rate := return_rate; profit := profit;
           market_value_cny := market_value;
           cost_value_cny := cost_value;
           profit_cny := profit |}).

Definition display_row (a : asset) (v : valuation) : result row :=
  ty ← getitem k_type a;
  name ← getitem k_name a;
  symbol ← getitem k_symbol a;
  market ← getitem k_market a;
  shares ← getitem k_shares a;
  cost_price ← getitem k_cost_price a;
  current_price ← getitem k_current_price a;
  Ok {| row_type := ty; row_name := name; row_symbol := symbol;
        row_market := market; row_shares := shares;
        row_cost_price := cost_price; row_current_price := current_price;
        row_return_rate := return_rate v;
        row_market_value_cny := market_value_cny v;
        row_profit_cny := profit_cny v |}.

Definition accumulate (t : totals) (v : valuation) : totals :=
  {| total_assets := num_add (total_assets t) (market_value_cny v);
     total_investment := num_add (total_investment t) (cost_value_cny v);
     total_profit := num_add (total_profit t) (profit_cny v) |}.

Definition no_totals : totals :=
  {| total_assets := zero; total_investment := zero; total_profit := zero |}.

(** [for asset in st.session_state.portfolio: ...].  The first
    component is the ledger as the loop leaves it, also when an
    iteration raises; the second is [display_data] with the totals,
    or the exception. *)
Fixpoint display_loop (hkd_to_cny : num) (portfolio : list asset)
    (display_data : list row) (t : totals)
    : list asset * result (list row * totals) :=
  match portfolio with
  | [] => ([], Ok (display_data, t))
  | a :: rest =>
      let a' := ensure_fields a in
      match v ← valuate hkd_to_cny a'; r ← display_row a' v; Ok (v, r) with
      | Raise e => (a' :: rest, Raise e)
      | Ok (v, r) =>
          let '(rest', out) :=
            display_loop hkd_to_cny rest (display_data ++ [r])
              (accumulate t v) in
          (a' :: rest', out)
      end
  end.

Definition render (hkd_to_cny : num) (portfolio : list asset)
    : list asset * result (list row * totals) :=
  display_loop hkd_to_cny portfolio [] no_totals.

(** The percentage shown with the total profit. *)
Definition total_return (t : totals) : result num :=
  if num_ltb zero (total_investment t) then
    q ← py_div (total_profit t) (total_investment t);
    Ok (num_mul q hundred)
  else Ok zero.

(** *** Market data: providers, memoised lookups

    What the upstream services answer during one script run.  A
    [Raise] reply is a call that fails (network error, timeout,
    malformed answer). *)

(** A row of a spot table.  The price is a [JNum] when the cell is a
    Python [int] or [float]. *)
Record spot_row := {
  spot_code : str;          (* the column 代码, as text *)
  spot_name : jvalue num;   (* 名称 *)
  spot_price : jvalue num;  (* 最新价 *)
}.

(** What get_stock_info reads of [info_dict]: the item 股票简称 when
    there is one, and [float(...)] of the item 最新 when there is one. *)
Record stock_info := {
  short_name : option (jvalue num);
  latest : option (result num);
}.

Record provider := {
  exchange_rate : result num;
  stock_individual_info_em : str -> result stock_info;
  stock_hk_spot_em : result (list spot_row);
  fund_etf_spot_em : result (list spot_row);
}.

Inductive request :=
  | RateRequest
  | AShareRequest (symbol_str : str)
  | HkSpotRequest
  | EtfSpotRequest.

Record quote := {
  q_name : jvalue num;
  q_current_price : jvalue num;
  q_currency : str;
}.

(** The state a script run works on: the session's ledger, the data
    file, the three memo tables, and the upstream calls made so far. *)
Record world := {
  portfolio : list asset;
  DATA_FILE : file;
  rate_cache : option (cached num);
  stock_cache : gmap (str * str) (cached quote);
  etf_cache : gmap str (cached quote);
  requests : list request;
}.

Definition io (A : Type) : Type := world -> A * world.

#[local] Instance io_ret : MRet io := fun A a w => (a, w).
#[local] Instance io_bind : MBind io :=
  fun A B f m w => let '(a, w') := m w in f a w'.

Definition set_portfolio (l : list asset) : io unit := fun w =>
  (tt, {| portfolio := l; DATA_FILE := DATA_FILE w;
          rate_cache := rate_cache w; stock_cache := stock_cache w;
          etf_cache := etf_cache w; requests := requests w |}).

Definition set_DATA_FILE (f : file) : io unit := fun w =>
  (tt, {| portfolio := portfolio w; DATA_FILE := f;
          rate_cache := rate_cache w; stock_cache := stock_cache w;
          etf_cache := etf_cache w; requests := requests w |}).

Definition set_rate_cache (c : option (cached num)) (w : world) : world :=
  {| portfolio := portfolio w; DATA_FILE := DATA_FILE w;
     rate_cache := c; stock_cache := stock_cache w;
     etf_cache := etf_cache w; requests := requests w |}.

Definition set_stock_cache (c : gmap (str * str) (cached quote))
    (w : world) : world :=
  {| portfolio := portfolio w; DATA_FILE := DATA_FILE w;
     rate_cache := rate_cache w; stock_cache := c;
     etf_cache := etf_cache w; requests := requests w |}.

Definition set_etf_cache (c : gmap str (cached quote)) (w : world) : world :=
  {| portfolio := portfolio w; DATA_FILE := DATA_FILE w;
     rate_cache := rate_cache w; stock_cache := stock_cache w;
     etf_cache := c; requests := requests w |}.

(** An upstream call: the request is sent, the reply comes back. *)
Definition sent (r : request) (w : world) : world :=
  {| portfolio := portfolio w; DATA_FILE := DATA_FILE w;
     rate_cache := rate_cache w; stock_cache := stock_cache w;
     etf_cache := etf_cache w; requests := requests w ++ [r] |}.

Definition call {A} (r : request) (reply : result A) : io (result A) :=
  fun w => (reply, sent r w).

(** Modelled from the spec: the memoisation of [st.cache_data(ttl=...)],
    which belongs to the UI framework and is not part of main.py.  A
    stored value is returned while its age is within the freshness
    window; otherwise the function runs and its result replaces the
    stored one. *)
Definition fresh {V} (ttl now : Z) (e : cached V) : bool :=
  (now - stored_at e <=? ttl)%Z.

Definition cache_data {V} (ttl now : Z) (slot : world -> option (cached V))
    (store : cached V -> world -> world) (body : io V) : io V :=
  fun w =>
    let run := let '(v, w') := body w in
               (v, store {| stored_at := now; stored := v |} w') in
    match slot w with
    | Some e => if fresh ttl now e then (stored e, w) else run
    | None => run
    end.

(** *** get_hkd_to_cny_rate *)

Definition DEFAULT_RATE : num := decimal 92 2.

Definition get_hkd_to_cny_rate_body (env : provider) : io num :=
  r ← call RateRequest (exchange_rate env);
  mret (match r with
        | Ok rate => rate
        | Raise _ => DEFAULT_RATE
        end).

Definition get_hkd_to_cny_rate (env : provider) (now : Z) : io num :=
  cache_data 3600 now rate_cache (fun e => set_rate_cache (Some e))
    (get_hkd_to_cny_rate_body env).

(** *** get_stock_info *)

Context `{PyRound num}.

(** The first row whose code is [code]: [df[df['代码'] == code]],
    then [.values[0]]. *)
Definition spot_lookup (code : str) (df : list spot_row) : option spot_row :=
  List.find (fun r => Text.eqb (spot_code r) code) df.

(** The [try] block, after [symbol = str(symbol).strip()]. *)
Definition stock_try (env : provider) (symbol market : str)
    : io (result quote) :=
  if Text.eqb market A_SHARE then
    let symbol_str := Text.zfill 6 symbol in
    r ← call (AShareRequest symbol_str)
           (stock_individual_info_em env symbol_str);
    mret (info_dict ← r;
          price ← default (Ok zero) (latest info_dict);
          Ok {| q_name := default (JStr (STOCK_PREFIX ++ symbol_str))
                            (short_name info_dict);
                q_current_price := JNum price;
                q_currency := CNY |})
  else
    r ← call HkSpotRequest (stock_hk_spot_em env);
    mret (df ← r;
          Ok (match spot_lookup (Text.zfill 5 symbol) df with
              | Some stock_row =>
                  {| q_name := spot_name stock_row;
                     q_current_price := spot_price stock_row;
                     q_currency := HKD |}
              | None =>
                  {| q_name := JStr (HK_PREFIX ++ symbol);
                     q_current_price := JNum zero;
                     q_currency := HKD |}
              end)).

Definition get_stock_info_body (env : provider) (symbol market : str)
    : io quote :=
  let symbol := Text.strip symbol in
  r ← stock_try env symbol market;
  mret (match r with
        | Ok q => q
        | Raise _ =>
            {| q_name := JStr symbol;
               q_current_price := JNum zero;
               q_currency := if Text.eqb market HK then HKD else CNY |}
        end).

Definition get_stock_info (env : provider) (now : Z) (symbol market : str)
    : io quote :=
  cache_data 300 now (fun w => stock_cache w !! (symbol, market))
    (fun e w => set_stock_cache (<[(symbol, market) := e]> (stock_cache w)) w)
    (get_stock_info_body env symbol market).

(** *** get_etf_info *)

Definition etf_try (env : provider) (symbol : str) : io (result quote) :=
  r ← call EtfSpotRequest (fund_etf_spot_em env);
  mret (etf_df ← r;
        Ok (match spot_lookup symbol etf_df with
            | Some etf_row =>
                let current_price :=
                  match spot_price etf_row with
                  | JNum n => n
                  | _ => zero
                  end in
                {| q_name := spot_name etf_row;
                   q_current_price := JNum (py_round3 current_price);
                   q_currency := CNY |}
            | None =>
                {| q_name := JStr (ETF_PREFIX ++ symbol);
                   q_current_price := JNum zero;
                   q_currency := CNY |}
            end)).

Definition get_etf_info_body (env : provider) (symbol : str) : io quote :=
  let symbol := Text.zfill 6 (Text.strip symbol) in
  r ← etf_try env symbol;
  mret (match r with
        | Ok q => q
        | Raise _ =>
            {| q_name := JStr (ETF_PREFIX ++ symbol);
               q_current_price := JNum zero;
               q_currency := CNY |}
        end).

Definition get_etf_info (env : provider) (now : Z) (symbol : str) : io quote :=
  cache_data 300 now (fun w => etf_cache w !! symbol)
    (fun e w => set_etf_cache (<[symbol := e]> (etf_cache w)) w)
    (get_etf_info_body env symbol).

(** *** The add form of main *)

Record add_form := {
  asset_type : str;
  symbol : str;
  market_choice : str;
  shares : num;
  cost_price : num;
  submitted : bool;
}.

(** The market select box is shown for stocks only. *)
Definition market (f : add_form) : str :=
  if Text.eqb (asset_type f) STOCK then market_choice f else A_SHARE.

Inductive add_outcome :=
  | NotSubmitted
  | ValidationError   (* st.error("请填写完整信息！") *)
  | Added.

Definition new_asset (f : add_form) (asset_info : quote) : asset :=
  <[k_symbol := JStr (symbol f)]>
  (<[k_type := JStr (asset_type f)]>
  (<[k_market := JStr (market f)]>
  (<[k_shares := JNum (shares f)]>
  (<[k_cost_price :=
       JNum (if Text.eqb (asset_type f) ETF then py_round3 (cost_price f)
             else cost_price f)]>
  (<[k_name := q_name asset_info]>
  (<[k_current_price := q_current_price asset_info]>
  (<[k_currency := JStr (q_currency asset_info)]> ∅))))))).

(** [st.session_state.portfolio.append(new_asset)] and
    [save_portfolio(st.session_state.portfolio)]. *)
Definition append_and_save (a : asset) : io unit :=
  fun w =>
    let l := portfolio w ++ [a] in
    (_ ← set_portfolio l; set_DATA_FILE (save_portfolio l)) w.

Definition main_add (env : provider) (now : Z) (f : add_form)
    : io add_outcome :=
  if submitted f && Text.truthy (symbol f) && num_ltb zero (shares f)
     && num_ltb zero (cost_price f) then
    asset_info ← (if Text.eqb (asset_type f) ETF
                   then get_etf_info env now (symbol f)
                   else get_stock_info env now (symbol f) (market f));
    _ ← append_and_save (new_asset f asset_info);
    mret Added
  else if submitted f then mret ValidationError
  else mret NotSubmitted.

(** *** The display part of main

    Nothing is shown for an empty ledger.  Otherwise the rate is looked
    up and the display loop runs on the session's ledger, which keeps
    what the loop wrote to its entries. *)
Definition main_display (env : provider) (now : Z)
    : io (option (result (list row * totals))) :=
  fun w =>
    match portfolio w with
    | [] => (None, w)
    | _ =>
        let '(hkd_to_cny, w1) := get_hkd_to_cny_rate env now w in
        let '(l, out) := render hkd_to_cny (portfolio w1) in
        (Some out, (set_portfolio l w1).2)
    end.

End Program.

(** ** Python's numbers and the exceptions of their arithmetic

  [json.load] and the number inputs of the form give two kinds of
  number: an [int] of any size and a [float] (binary64).  Arithmetic
  on two ints is exact.  When one operand is a float the other is
  converted first, and converting an int beyond the range of binary64
  raises [OverflowError]; so does the true division of two ints whose
  quotient is beyond that range.  Float arithmetic itself raises only
  on a division by zero.  calculate_return, the display loop and the
  total percentage are written out again on these numbers, statement
  by statement, to tell which exceptions they can raise.  (The numpy
  scalars a spot table may hand over are not covered.) *)

Module Python.

Inductive number :=
  | Int (z : Z)
  | Float (x : float).

Local Abbreviation asset := (gmap str (jvalue number)).

(** [float(n)]: the nearest float, ties to even; an int that rounds
    beyond the largest float does not convert. *)
Definition to_float (n : number) : result float :=
  match n with
  | Float x => Ok x
  | Int z =>
      let x := float_of_Z z in
      if PrimFloat.is_infinity x then Raise OverflowError else Ok x
  end.

(** [n == 0] and [n > 0]; a float is compared with the int 0 exactly. *)
Definition eq0 (n : number) : bool :=
  match n with
  | Int z => (z =? 0)%Z
  | Float x => PrimFloat.eqb x 0%float
  end.

Definition gt0 (n : number) : bool :=
  match n with
  | Int z => (0 <? z)%Z
  | Float x => PrimFloat.ltb 0%float x
  end.

(** A binary operation: exact on two ints; otherwise both operands
    are converted and the operation is the one of the floats. *)
Definition arith (int_op : Z -> Z -> Z) (float_op : float -> float -> float)
    (a b : number) : result number :=
  match a, b with
  | Int x, Int y => Ok (Int (int_op x y))
  | _, _ => x ← to_float a; y ← to_float b; Ok (Float (float_op x y))
  end.

(** [a + b], [a - b], [a * b] *)
Definition add : number -> number -> result number :=
  arith Z.add PrimFloat.add.

Definition sub : number -> number -> result number :=
  arith Z.sub PrimFloat.sub.

Definition mul : number -> number -> result number :=
  arith Z.mul PrimFloat.mul.

Definition spec_of_int (z : Z) : spec_float :=
  match z with
  | Z0 => S754_zero false
  | Zpos p => S754_finite false p 0
  | Zneg p => S754_finite true p 0
  end.

(** The quotient of two ints as a float: the exact quotient, rounded
    once to the nearest float. *)
Definition int_truediv (x y : Z) : float :=
  SF2Prim (SFdiv prec emax (spec_of_int x) (spec_of_int y)).

(** [a / b].  Two ints: a zero divisor raises, then a quotient beyond
    the floats raises.  Otherwise both operands are converted, which
    may raise, and then a zero divisor raises (an int is zero exactly
    when its conversion is). *)
Definition truediv (a b : number) : result number :=
  match a, b with
  | Int x, Int y =>
      if (y =? 0)%Z then Raise ZeroDivisionError
      else
        let q := int_truediv x y in
        if PrimFloat.is_infinity q then Raise OverflowError else Ok (Float q)
  | _, _ =>
      x ← to_float a;
      y ← to_float b;
      if eq0 b then Raise ZeroDivisionError
      else Ok (Float (PrimFloat.div x y))
  end.

(** *** calculate_return *)

Definition calculate_return (cost_price current_price : number)
    : result number :=
  if eq0 cost_price then Ok (Int 0)
  else
    d ← sub current_price cost_price;
    q ← truediv d cost_price;
    mul q (Int 100).

(** *** The display loop of main *)

(** The computation of one iteration, on the entry after
    [ensure_fields]. *)
Definition valuate (hkd_to_cny : number) (a : asset)
    : result (@valuation number) :=
  shares ← getitem k_shares a;
  current_price ← getitem k_current_price a;
  s ← as_num shares;
  p ← as_num current_price;
  market_value ← mul s p;
  cost_price ← getitem k_cost_price a;
  c ← as_num cost_price;
  cost_value ← mul s c;
  return_rate ← calculate_return c p;
  profit ← sub market_value cost_value;
  currency ← getitem k_currency a;
  if is_text currency HKD then
    market_value_cny ← mul market_value hkd_to_cny;
    cost_value_cny ← mul cost_value hkd_to_cny;
    profit_cny ← mul profit hkd_to_cny;
    Ok {| market_value := market_value; cost_value := cost_value;
          return_rate := return_rate; profit := profit;
          market_value_cny := market_value_cny;
          cost_value_cny := cost_value_cny;
          profit_cny := profit_cny |}
  else
    Ok {| market_value := market_value; cost_value := cost_value;
          return_rate := return_rate; profit := profit;
          market_value_cny := market_value;
          cost_value_cny := cost_value;
          profit_cny := profit |}.

(** The three [+=]. *)
Definition accumulate (t : @totals number) (v : @valuation number)
    : result (@totals number) :=
  total_assets ← add (total_assets t) (market_value_cny v);
  total_investment ← add (total_investment t) (cost_value_cny v);
  total_profit ← add (total_profit t) (profit_cny v);
  Ok {| total_assets := total_assets; total_investment := total_investment;
        total_profit := total_profit |}.

Definition no_totals : @totals number :=
  {| total_assets := Int 0; total_investment := Int 0; total_profit := Int 0 |}.

(** A float format ([.2f], [.3f], [,.2f], [+,.2f]) applied to a number:
    an int is converted to a float first. *)
Definition format_f (n : number) : result unit :=
  _ ← to_float n; Ok tt.

(** The row appended to [display_data]; the cells hold the values the
    format strings are applied to. *)
Definition display_row (a : asset) (v : @valuation number)
    : result (@row number) :=
  ty ← getitem k_type a;
  name ← getitem k_name a;
  symbol ← getitem k_symbol a;
  market ← getitem k_market a;
  shares ← getitem k_shares a;
  cost_price ← getitem k_cost_price a;
  c ← as_num cost_price;
  _ ← format_f c;
  current_price ← getitem k_current_price a;
  p ← as_num current_price;
  _ ← format_f p;
  _ ← format_f (return_rate v);
  _ ← format_f (market_value_cny v);
  _ ← (if eq0 (profit_cny v) then Ok tt else format_f (profit_cny v));
  Ok {| row_type := ty; row_name := name; row_symbol := symbol;
        row_market := market; row_shares := shares;
        row_cost_price := cost_price; row_current_price := current_price;
        row_return_rate := return_rate v;
        row_market_value_cny := market_value_cny v;
        row_profit_cny := profit_cny v |}.

(** One iteration on the entry after [ensure_fields]: the values, the
    totals, the row. *)
Definition iteration (hkd_to_cny : number) (a : asset) (t : @totals number)
    : result (@totals number * @row number) :=
  v ← valuate hkd_to_cny a;
  t' ← accumulate t v;
  r ← display_row a v;
  Ok (t', r).

Fixpoint display_loop (hkd_to_cny : number) (portfolio : list asset)
    (display_data : list (@row number)) (t : @totals number)
    : list asset * result (list (@row number) * @totals number) :=
  match portfolio with
  | [] => ([], Ok (display_data, t))
  | a :: rest =>
      let a' := ensure_fields a in
      match iteration hkd_to_cny a' t with
      | Raise e => (a' :: rest, Raise e)
      | Ok (t', r) =>
          let '(rest', out) :=
            display_loop hkd_to_cny rest (display_data ++ [r]) t' in
          (a' :: rest', out)
      end
  end.

Definition render (hkd_to_cny : number) (portfolio : list asset)
    : list asset * result (list (@row number) * @totals number) :=
  display_loop hkd_to_cny portfolio [] no_totals.

(** The percentage shown with the total profit. *)
Definition total_return (t : @totals number) : result number :=
  if gt0 (total_investment t) then
    q ← truediv (total_profit t) (total_investment t);
    mul q (Int 100)
  else Ok (Int 0).

(** A number that converts to a float, and a number that is a float
    or the int 0 (the price of a placeholder quote). *)
Definition convertible (n : number) : Prop :=
  exists x, to_float n = Ok x.

Definition float_or_zero (n : number) : Prop :=
  match n with
  | Int z => z = 0%Z
  | Float _ => True
  end.

(** An entry as the add form writes it: a share count that converts,
    prices that are floats or 0, and a name, a symbol and a market. *)
Definition presentable (a : asset) : Prop :=
  (exists s, a !! k_shares = Some (JNum s) /\ convertible s) /\
  (exists p, a !! k_current_price = Some (JNum p) /\ float_or_zero p) /\
  (exists c, a !! k_cost_price = Some (JNum c) /\ float_or_zero c) /\
  is_Some (a !! k_name) /\ is_Some (a !! k_symbol) /\
  is_Some (a !! k_market).

(** A holding with the given numbers. *)
Definition holding (market currency : str) (shares cost_price current_price
    : number) : asset :=
  <[k_symbol := JStr (Text.utf8 "00700"%string)]>
  (<[k_type := JStr STOCK]>
  (<[k_market := JStr market]>
  (<[k_shares := JNum shares]>
  (<[k_cost_price := JNum cost_price]>
  (<[k_current_price := JNum current_price]>
  (<[k_name := JStr (Text.utf8 "Tencent"%string)]>
  (<[k_currency := JStr currency]> ∅))))))).

End Python.

(** ** The rest of main: refresh, delete, session start *)

(** How a part of a script run ends: normally, with an exception that
    leaves main, or outside what is modelled here. *)
Inductive run (A : Type) :=
  | Done (a : A)
  | Abort (e : exn)
  | Unmodelled.
Arguments Done {A} a.
Arguments Abort {A} e.
Arguments Unmodelled {A}.

Inductive delete_outcome :=
  | Deleted
  | IndexError.

Section Registry.
Context {num : Type} `{PyNum num} `{PyRound num}.

Local Abbreviation asset := (gmap str (jvalue num)).

(** [x != y] on values read from a dict or a quote. *)
Definition py_ne (x y : jvalue num) : bool :=
  match x, y with
  | JNum a, JNum b => negb (num_eqb a b)
  | JStr s, JStr t => negb (Text.eqb s t)
  | JNull, JNull => false
  | _, _ => true
  end.

(** [round(v, 3)] on the price of a quote. *)
Definition py_round (v : jvalue num) : result (jvalue num) :=
  match v with
  | JNum n => Ok (JNum (py_round3 n))
  | _ => Raise TypeError
  end.

(** [asset[k]] passed to a lookup.  The lookups are modelled for text
    arguments; a stored value of another kind is outside the model
    ([None]). *)
Definition arg_text (k : str) (a : asset) : option (result str) :=
  match a !! k with
  | None => Some (Raise (KeyError k))
  | Some (JStr s) => Some (Ok s)
  | Some _ => None
  end.

(** The first statement of the [try] block of the refresh loop: the
    quote of the asset, or the exception it raises. *)
Definition refresh_lookup (env : provider) (now : Z) (a : asset)
    : io (run (result quote)) :=
  fun w =>
    match getitem k_type a with
    | Raise e => (Done (Raise e), w)
    | Ok ty =>
        match arg_text k_symbol a with
        | None => (Unmodelled, w)
        | Some (Raise e) => (Done (Raise e), w)
        | Some (Ok symbol) =>
            if is_text ty STOCK then
              match arg_text k_market a with
              | None => (Unmodelled, w)
              | Some (Raise e) => (Done (Raise e), w)
              | Some (Ok market) =>
                  let '(q, w') := get_stock_info env now symbol market w in
                  (Done (Ok q), w')
              end
            else
              let '(q, w') := get_etf_info env now symbol w in
              (Done (Ok q), w')
        end
    end.

(** The rest of the [try] block: the asset and the flag [updated] as
    the block leaves them, and the exception when it raises. *)
Definition refresh_write (asset_info : quote) (a : asset) (updated : bool)
    : asset * bool * result unit :=
  match
    ty ← getitem k_type a;
    if is_text ty ETF then py_round (q_current_price asset_info)
    else Ok (q_current_price asset_info)
  with
  | Raise e => (a, updated, Raise e)
  | Ok new_price =>
      match getitem k_current_price a with
      | Raise e => (a, updated, Raise e)
      | Ok current_price =>
          let '(a1, u1) :=
            if py_ne current_price new_price
            then (<[k_current_price := new_price]> a, true)
            else (a, updated) in
          match getitem k_name a1 with
          | Raise e => (a1, u1, Raise e)
          | Ok name =>
              if py_ne (q_name asset_info) name
              then (<[k_name := q_name asset_info]> a1, true, Ok tt)
              else (a1, u1, Ok tt)
          end
      end
  end.

(** The [except] branch reports the symbol of the asset, and raises
    itself when there is none. *)
Definition refresh_except (a : asset) (updated : bool) : run (asset * bool) :=
  match a !! k_symbol with
  | Some _ => Done (a, updated)
  | None => Abort (KeyError k_symbol)
  end.

(** One iteration of the refresh loop. *)
Definition refresh_entry (env : provider) (now : Z) (a : asset)
    (updated : bool) : io (run (asset * bool)) :=
  fun w =>
    match refresh_lookup env now a w with
    | (Unmodelled, w') => (Unmodelled, w')
    | (Abort e, w') => (Abort e, w')
    | (Done (Raise _), w') => (refresh_except a updated, w')
    | (Done (Ok asset_info), w') =>
        match refresh_write asset_info a updated with
        | (a', u', Ok _) => (Done (a', u'), w')
        | (a', u', Raise _) => (refresh_except a' u', w')
        end
    end.

(** [for asset in st.session_state.portfolio: ...] of the refresh
    button: the ledger as the loop leaves it, and the flag [updated]
    when the loop ends. *)
Fixpoint refresh_loop (env : provider) (now : Z) (portfolio : list asset)
    (updated : bool) : io (list asset * run bool) :=
  fun w =>
    match portfolio with
    | [] => (([], Done updated), w)
    | a :: rest =>
        match refresh_entry env now a updated w with
        | (Done (a', u'), w') =>
            let '((rest', out), w'') := refresh_loop env now rest u' w' in
            ((a' :: rest', out), w'')
        | (Abort e, w') => ((a :: rest, Abort e), w')
        | (Unmodelled, w') => ((a :: rest, Unmodelled), w')
        end
    end.

(** The branch of the refresh button: the rate is looked up, the loop
    runs, and the ledger is saved when something changed.  (The time of
    the last update, which is only shown, is left out.) *)
Definition main_refresh (env : provider) (now : Z) : io (run bool) :=
  fun w =>
    let '(_, w1) := get_hkd_to_cny_rate env now w in
    let '((l, out), w2) := refresh_loop env now (portfolio w1) false w1 in
    let w3 := (set_portfolio l w2).2 in
    match out with
    | Done true => (out, (set_DATA_FILE (save_portfolio l) w3).2)
    | _ => (out, w3)
    end.

(** The branch of the delete button:
    [del st.session_state.portfolio[selected_asset]] and
    [save_portfolio].  The select box offers the positions of the
    ledger; a position past the end makes [del] raise. *)
Definition main_delete (selected_asset : nat) : @io num delete_outcome :=
  fun w =>
    if (selected_asset <? length (portfolio w))%nat then
      let l := delete selected_asset (portfolio w) in
      (Deleted, (set_DATA_FILE (save_portfolio l) (set_portfolio l w).2).2)
    else (IndexError, w).

(** The start of a session: the ledger is loaded, nothing is memoised
    yet. *)
Definition session_start (f : @file num) : result (@world num) :=
  l ← load_portfolio f;
  Ok {| portfolio := l; DATA_FILE := f; rate_cache := None;
        stock_cache := ∅; etf_cache := ∅; requests := [] |}.

(** The states a session goes through: after its start, any sequence
    of submitted forms, deletions, refreshes and displays, whatever the
    upstream services answer. *)
Inductive reachable (f : @file num) : @world num -> Prop :=
  | reach_start w :
      session_start f = Ok w -> reachable f w
  | reach_add w env now form :
      reachable f w -> reachable f (main_add env now form w).2
  | reach_delete w i :
      reachable f w -> reachable f (main_delete i w).2
  | reach_refresh w env now :
      reachable f w ->
      (main_refresh env now w).1 <> Unmodelled ->
      reachable f (main_refresh env now w).2
  | reach_display w env now :
      reachable f w -> reachable f (main_display env now w).2.

(** One iteration of the display loop, on the entry as stored. *)
Definition iteration (hkd_to_cny : num) (a : asset)
    : result (valuation * row) :=
  v ← valuate hkd_to_cny (ensure_fields a);
  r ← display_row (ensure_fields a) v;
  Ok (v, r).

(** What a refresh may do to an entry: give it another price and
    another name, and nothing else. *)
Definition repriced (a a' : asset) : Prop :=
  (forall k, k <> k_current_price -> k <> k_name -> a' !! k = a !! k) /\
  (forall k, is_Some (a' !! k) <-> is_Some (a !! k)).

(** What one iteration of the refresh loop guarantees: a price or a
    name may have changed, the flag is raised when one did, and only an
    entry without a symbol makes the loop leave main. *)
Definition entry_refreshed (a : asset) (u : bool) (out : run (asset * bool))
    : Prop :=
  match out with
  | Done (a', u') =>
      repriced a a' /\ (u = true -> u' = true) /\ (u' = false -> a' = a)
  | Abort e => e = KeyError k_symbol /\ a !! k_symbol = None
  | Unmodelled => True
  end.

(** What a lookup leaves alone: the ledger and the data file; it sends
    at most one request. *)
Definition lookup_frame (w w' : @world num) : Prop :=
  portfolio w' = portfolio w /\ DATA_FILE w' = DATA_FILE w /\
  (requests w' = requests w \/ exists r, requests w' = requests w ++ [r]).

(** The lookup the add form makes for a valid form. *)
Definition add_lookup (env : @provider num) (now : Z) (f : @add_form num)
    : io quote :=
  if Text.eqb (asset_type f) ETF then get_etf_info env now (symbol f)
  else get_stock_info env now (symbol f) (market f).

(** A stored record that names its symbol and its market in text. *)
Definition named (a : asset) : Prop :=
  (exists s, a !! k_symbol = Some (JStr s)) /\
  (exists m, a !! k_market = Some (JStr m)).

(** What every memoised quote satisfies: the currency is the one of
    the market it was asked for. *)
Definition caches_agree (w : @world num) : Prop :=
  (forall symbol market c,
     stock_cache w !! (symbol, market) = Some c ->
     market = A_SHARE \/ market = HK ->
     q_currency (stored c) = if Text.eqb market HK then HKD else CNY)
  /\ (forall symbol c,
        etf_cache w !! symbol = Some c -> q_currency (stored c) = CNY).

(** The placeholder that get_stock_info returns when its upstream call
    fails. *)
Definition stock_placeholder (symbol market : str) : @quote num :=
  {| q_name := JStr (Text.strip symbol);
     q_current_price := JNum zero;
     q_currency := if Text.eqb market HK then HKD else CNY |}.

(** The memo slot of a stock lookup holds nothing young enough to be
    returned, or it holds the placeholder. *)
Definition stale_or_placeholder (now : Z) (symbol market : str)
    (w : @world num) : Prop :=
  forall c, stock_cache w !! (symbol, market) = Some c ->
    fresh 300 now c = true -> stored c = stock_placeholder symbol market.

End Registry.

(** ** Concrete ledgers and provider states used below *)

Section Examples.
Context {num : Type} `{PyNum num}.

Definition entry (symbol type market : str) (shares cost_price current_price : Z)
    (name : str) (currency : option str) : gmap str (jvalue num) :=
  let a : gmap str (jvalue num) :=
    <[k_symbol := JStr symbol]>
    (<[k_type := JStr type]>
    (<[k_market := JStr market]>
    (<[k_shares := JNum (num_of_Z shares)]>
    (<[k_cost_price := JNum (num_of_Z cost_price)]>
    (<[k_current_price := JNum (num_of_Z current_price)]>
    (<[k_name := JStr name]> ∅)))))) in
  match currency with
  | Some c => <[k_currency := JStr c]> a
  | None => a
  end.

(** One domestic and one Hong Kong stock. *)
Definition domestic_stock : gmap str (jvalue num) :=
  entry (Text.utf8 "000001"%string) STOCK A_SHARE 100 10 12
    (Text.utf8 "PAB"%string) (Some CNY).

Definition foreign_stock : gmap str (jvalue num) :=
  entry (Text.utf8 "00700"%string) STOCK HK 50 20 18
    (Text.utf8 "Tencent"%string) (Some HKD).

Definition two_stocks : list (gmap str (jvalue num)) :=
  [domestic_stock; foreign_stock].

(** A Hong Kong stock stored without its currency. *)
Definition legacy_hk_stock : gmap str (jvalue num) :=
  entry (Text.utf8 "00700"%string) STOCK HK 50 20 18
    (Text.utf8 "Tencent"%string) None.

(** The same record as an older version of the program stored it,
    with neither type nor currency. *)
Definition untyped_legacy_stock : gmap str (jvalue num) :=
  delete k_type legacy_hk_stock.

(** A Hong Kong stock stored with the domestic currency. *)
Definition mismatched_hk_stock : gmap str (jvalue num) :=
  entry (Text.utf8 "00700"%string) STOCK HK 50 20 18
    (Text.utf8 "Tencent"%string) (Some CNY).

(** The currency of a market. *)
Definition currency_of (m : jvalue num) : jvalue num :=
  JStr (if is_text m HK then HKD else CNY).

(** An entry that names its type and its currency. *)
Definition complete (a : gmap str (jvalue num)) : Prop :=
  is_Some (a !! k_type) /\ is_Some (a !! k_currency).

(** Whether the stored currency is the one of the stored market. *)
Definition currency_agrees (a : gmap str (jvalue num)) : bool :=
  match a !! k_market, a !! k_currency with
  | Some m, Some c => Bool.eqb (is_text m HK) (is_text c HKD)
  | _, _ => false
  end.

(** Upstream services that all fail, and ones whose rate service
    answers [rate]. *)
Definition provider_down : @provider num :=
  {| exchange_rate := Raise ProviderError;
     stock_individual_info_em := fun _ => Raise ProviderError;
     stock_hk_spot_em := Raise ProviderError;
     fund_etf_spot_em := Raise ProviderError |}.

Definition provider_rate (rate : num) : @provider num :=
  {| exchange_rate := Ok rate;
     stock_individual_info_em := fun _ => Raise ProviderError;
     stock_hk_spot_em := Raise ProviderError;
     fund_etf_spot_em := Raise ProviderError |}.

Definition empty_world : @world num :=
  {| portfolio := []; DATA_FILE := None; rate_cache := None;
     stock_cache := ∅; etf_cache := ∅; requests := [] |}.

(** A rate of 0.91 is fetched at time 0; at time 4000, past the
    freshness window, the rate is asked for again and the service fails. *)
Definition rate_then_outage : num * @world num :=
  get_hkd_to_cny_rate provider_down 4000
    (get_hkd_to_cny_rate (provider_rate (decimal 91 2)) 0 empty_world).2.

(** No stored value young enough to be returned: the lookup goes
    upstream. *)
Definition no_fresh {V} (ttl now : Z) (slot : option (cached V)) : Prop :=
  forall c, slot = Some c -> fresh ttl now c = false.

(** The upstream call that get_stock_info makes for this symbol and
    market fails. *)
Definition stock_call_fails (env : @provider num) (symbol market : str) : Prop :=
  if Text.eqb market A_SHARE then
    exists e, stock_individual_info_em env
                (Text.zfill 6 (Text.strip symbol)) = Raise e
  else exists e, stock_hk_spot_em env = Raise e.

(** The add form filled in for a stock. *)
Definition stock_form (symbol market : str) (shares cost_price : num)
    : @add_form num :=
  {| asset_type := STOCK; symbol := symbol; market_choice := market;
     shares := shares; cost_price := cost_price; submitted := true |}.

(** The Hong Kong stock stored without its market, and without its
    number of shares. *)
Definition marketless_stock : gmap str (jvalue num) :=
  delete k_market foreign_stock.

Definition shareless_stock : gmap str (jvalue num) :=
  delete k_shares foreign_stock.

(** And the same stock stored without its symbol. *)
Definition symbolless_stock : gmap str (jvalue num) :=
  delete k_symbol foreign_stock.

(** A session that holds the ledger [l], saved, and has memoised
    nothing. *)
Definition session_of (l : list (gmap str (jvalue num))) : @world num :=
  {| portfolio := l; DATA_FILE := Some l; rate_cache := None;
     stock_cache := ∅; etf_cache := ∅; requests := [] |}.

End Examples.

Section Soundness.
Context {num : Type} `{PyNum num} `{PyRound num}.


End Soundness.

(** * Properties *)

(** The model on small inputs. *)

Example zfill_pads :
  Text.zfill 5 (Text.strip (Text.utf8 " 700 "%string)) = Text.utf8 "00700"%string
  /\ Text.zfill 6 (Text.utf8 "-12"%string) = Text.utf8 "-00012"%string
  /\ Text.zfill 6 (Text.utf8 "1234567"%string) = Text.utf8 "1234567"%string.
Proof. repeat split; reflexivity. Qed.

Example return_of_ten_percent :
  (exists r, calculate_return (num := Q) (inject_Z 100) (inject_Z 110) = Ok r
             /\ Qeq r (inject_Z 10))
  /\ calculate_return (num := float) 100%float 110%float = Ok 10%float
  /\ calculate_return (num := float) 0%float 110%float = Ok 0%float
  /\ calculate_return (num := float) (-0)%float 110%float = Ok 0%float.
Proof.
  split; [eexists; split; [reflexivity|by vm_compute]|].
  repeat split; by vm_compute.
Qed.

Example foreign_holding :
  exists v,
    valuate (num := float) (decimal 92 2)
      (entry (Text.utf8 "00700"%string) STOCK HK 10 100 110
         (Text.utf8 "Tencent"%string) (Some HKD)) = Ok v
    /\ market_value v = 1100%float
    /\ market_value_cny v = 1012%float
    /\ return_rate v = 10%float.
Proof. eexists. split; [by vm_compute|]. repeat split; by vm_compute. Qed.

Example round3_examples :
  py_round3 2.675%float = 2.675%float
  /\ py_round3 0.1255%float = 0.126%float
  /\ py_round3 1.0005%float = 1%float
  /\ Qeq (py_round3 (Qmake 26745 10000)) (Qmake 2674 1000).
Proof. repeat split; by vm_compute. Qed.

Section DictFacts.
Context {V : Type}.
Implicit Types (d : gmap str V) (k : str) (v : V).

Lemma setdefault_present k v d : is_Some (d !! k) -> setdefault k v d = d.
Proof. intros [x Hx]. unfold setdefault. by rewrite Hx. Qed.

Lemma setdefault_absent k v d : d !! k = None -> setdefault k v d = <[k := v]> d.
Proof. intros Hk. unfold setdefault. by rewrite Hk. Qed.

Lemma lookup_setdefault k v d :
  setdefault k v d !! k = Some (default v (d !! k)).
Proof.
  unfold setdefault. destruct (d !! k) as [x|] eqn:E; simpl.
  - exact E.
  - apply lookup_insert_eq.
Qed.

Lemma lookup_setdefault_ne k k' v d :
  k <> k' -> setdefault k v d !! k' = d !! k'.
Proof.
  intros Hne. unfold setdefault. destruct (d !! k); [done|].
  by apply lookup_insert_ne.
Qed.

Lemma setdefault_keeps k k' v x d :
  d !! k' = Some x -> setdefault k v d !! k' = Some x.
Proof.
  intros Hx. destruct (decide (k = k')) as [->|Hne].
  - rewrite lookup_setdefault, Hx. done.
  - by rewrite lookup_setdefault_ne.
Qed.

Lemma getitem_Some k x d : d !! k = Some x -> getitem k d = Ok x.
Proof. intros Hx. unfold getitem. by rewrite Hx. Qed.

End DictFacts.

(** Distinct dictionary keys, and distinct constants. *)
Ltac distinct := solve [ discriminate | by vm_compute ].

Lemma bind_Ok {A C} (m : result A) (k : A -> result C) c :
  (x ← m; k x) = Ok c -> exists a, m = Ok a /\ k a = Ok c.
Proof. destruct m as [a|e]; simpl; [eauto | discriminate]. Qed.

Section ResultFacts.
Context {A B : Type} (f : A -> result B).

Lemma for_each_lookup l l' :
  for_each f l = Ok l' ->
  length l' = length l /\
  forall i x, l !! i = Some x -> exists y, l' !! i = Some y /\ f x = Ok y.
Proof.
  revert l'. induction l as [|x r IH]; intros l' Hl; simpl in Hl.
  - injection Hl as <-. split; [done|]. intros i x Hx. done.
  - apply bind_Ok in Hl as (y & Hy & Hl).
    apply bind_Ok in Hl as (ys & Hys & Hl). injection Hl as <-.
    destruct (IH _ Hys) as [Hlen Hlk]. split; [simpl; congruence|].
    intros [|i] z Hz; simpl in *.
    + injection Hz as <-. eauto.
    + eauto.
Qed.

Lemma for_each_total l :
  Forall (fun x => exists y, f x = Ok y) l -> exists l', for_each f l = Ok l'.
Proof.
  induction 1 as [|x r [y Hy] _ [ys Hys]]; simpl; [eauto|].
  rewrite Hy; simpl. rewrite Hys; simpl. eauto.
Qed.

End ResultFacts.

Lemma for_each_fixed {A} (f : A -> result A) l l' :
  (forall x y, f x = Ok y -> f y = Ok y) ->
  for_each f l = Ok l' -> for_each f l' = Ok l'.
Proof.
  intros Hf. revert l'. induction l as [|x r IH]; intros l' Hl; simpl in Hl.
  - by injection Hl as <-.
  - apply bind_Ok in Hl as (y & Hy & Hl).
    apply bind_Ok in Hl as (ys & Hys & Hl). injection Hl as <-.
    simpl. rewrite (Hf _ _ Hy); simpl. by rewrite (IH _ Hys).
Qed.

Section LedgerStore.
Context {num : Type} `{PyNum num}.
Local Abbreviation asset := (gmap str (jvalue num)).
Implicit Types (a : asset) (m : jvalue num).

Lemma migrate_Ok a m :
  a !! k_market = Some m ->
  migrate a =
    Ok (setdefault k_currency (currency_of m) (setdefault k_type (JStr STOCK) a)).
Proof.
  intros Hm. unfold migrate.
  rewrite (getitem_Some k_market m); [done|].
  by apply setdefault_keeps.
Qed.

Lemma migrate_inv a a' :
  migrate a = Ok a' ->
  exists m, a !! k_market = Some m /\
    a' = setdefault k_currency (currency_of m)
           (setdefault k_type (JStr STOCK) a).
Proof.
  unfold migrate. intros Hm. apply bind_Ok in Hm as (m & Hget & Hm).
  injection Hm as <-. exists m. split; [|done].
  unfold getitem in Hget. rewrite lookup_setdefault_ne in Hget by distinct.
  destruct (a !! k_market); [congruence | discriminate].
Qed.

Lemma migrate_fixed a a' : migrate a = Ok a' -> migrate a' = Ok a'.
Proof.
  intros Ha. destruct (migrate_inv _ _ Ha) as (m & Hm & ->).
  erewrite migrate_Ok; [|by do 2 apply setdefault_keeps].
  f_equal. rewrite (setdefault_present k_type).
  - apply setdefault_present. rewrite lookup_setdefault. eauto.
  - rewrite lookup_setdefault_ne by distinct. rewrite lookup_setdefault. eauto.
Qed.

Lemma load_lookup (x : list asset) l :
  load_portfolio (Some x) = Ok l ->
  length l = length x /\
  forall i a, x !! i = Some a ->
    exists a' m, l !! i = Some a' /\ a !! k_market = Some m /\
      a' = setdefault k_currency (currency_of m)
             (setdefault k_type (JStr STOCK) a).
Proof.
  intros Hl. apply for_each_lookup in Hl as [Hlen Hlk]. split; [done|].
  intros i a Ha. destruct (Hlk _ _ Ha) as (a' & Ha' & Hm).
  destruct (migrate_inv _ _ Hm) as (m & ? & ?). eauto.
Qed.

Lemma load_singleton a m :
  a !! k_market = Some m ->
  load_portfolio (Some [a])
  = Ok [setdefault k_currency (currency_of m)
          (setdefault k_type (JStr STOCK) a)].
Proof. intros Hm. simpl. by rewrite (migrate_Ok _ _ Hm). Qed.

Lemma load_total (x : list asset) :
  Forall (fun a => is_Some (a !! k_market)) x ->
  exists l, load_portfolio (Some x) = Ok l.
Proof.
  intros Hx. apply for_each_total. eapply Forall_impl; [exact Hx|].
  intros a [m Hm]. rewrite (migrate_Ok _ _ Hm). eauto.
Qed.

(** C8: loading what was saved after a load gives the first load's
    result again, an exception of the first load included.  A stored
    ledger whose records all name their market (they may lack type and
    currency) loads without exception; the loaded record has the stored
    type, or 股票 when none was stored, the stored currency, or the one of
    its market when none was stored, and every other field as stored. *)
Theorem migration_idempotent :
  (forall x : @file num,
     (l ← load_portfolio x; load_portfolio (save_portfolio l))
     = load_portfolio x)
  /\ (forall x : list asset,
       Forall (fun a => is_Some (a !! k_market)) x ->
       exists l,
         load_portfolio (Some x) = Ok l /\
         load_portfolio (save_portfolio l) = Ok l /\
         length l = length x /\
         forall i a, x !! i = Some a ->
           exists a' m,
             l !! i = Some a' /\ a !! k_market = Some m /\
             a' !! k_type = Some (default (JStr STOCK) (a !! k_type)) /\
             a' !! k_currency
               = Some (default (currency_of m) (a !! k_currency)) /\
             forall k, k <> k_type -> k <> k_currency -> a' !! k = a !! k)
  /\ load_portfolio (num := num) None = Ok [].
Proof.
  assert (Hidem : forall (x : @file num) l,
             load_portfolio x = Ok l -> load_portfolio (save_portfolio l) = Ok l).
  { intros [x|] l Hl; simpl in *.
    - eapply for_each_fixed; [|exact Hl]. apply migrate_fixed.
    - by injection Hl as <-. }
  split; [|split; [|done]].
  - intros x. destruct (load_portfolio x) as [l|e] eqn:Hl; simpl; [|done].
    by apply (Hidem x).
  - intros x Hx. destruct (load_total x Hx) as [l Hl]. exists l.
    split; [done|]. split; [by apply (Hidem (Some x))|].
    destruct (load_lookup _ _ Hl) as [Hlen Hlk]. split; [done|].
    intros i a Ha. destruct (Hlk _ _ Ha) as (a' & m & Ha' & Hm & ->).
    eexists _, m. split; [done|]. split; [done|]. split; [|split].
    + rewrite lookup_setdefault_ne by distinct. apply lookup_setdefault.
    + rewrite lookup_setdefault. by rewrite lookup_setdefault_ne by distinct.
    + intros k Hk1 Hk2. by rewrite !lookup_setdefault_ne.
Qed.

(** C4, as amended: Load never rewrites a stored currency, whether or
    not it is the one of the stored market; a record stored without a
    currency is loaded with the currency of its market (HKD for 港股, CNY
    otherwise), and market and currency then agree. *)
Theorem load_currency (x : list asset) l i a :
  load_portfolio (Some x) = Ok l ->
  x !! i = Some a ->
  exists a' m,
    l !! i = Some a' /\ a' !! k_market = Some m /\
    (forall c, a !! k_currency = Some c -> a' !! k_currency = Some c) /\
    (a !! k_currency = None ->
       a' !! k_currency = Some (currency_of m) /\ currency_agrees a' = true).
Proof.
  intros Hl Ha. destruct (load_lookup _ _ Hl) as [_ Hlk].
  destruct (Hlk _ _ Ha) as (a' & m & Ha' & Hm & ->).
  eexists _, m. split; [done|].
  assert (Hm' : setdefault k_currency (currency_of m)
                  (setdefault k_type (JStr STOCK) a) !! k_market = Some m)
    by (by do 2 apply setdefault_keeps).
  split; [done|]. split.
  - intros c Hc. rewrite lookup_setdefault.
    rewrite lookup_setdefault_ne by distinct. by rewrite Hc.
  - intros Hc.
    assert (Hcur : setdefault k_currency (currency_of m)
                     (setdefault k_type (JStr STOCK) a) !! k_currency
                   = Some (currency_of m)).
    { rewrite lookup_setdefault.
      rewrite lookup_setdefault_ne by distinct. by rewrite Hc. }
    split; [done|]. unfold currency_agrees. rewrite Hm', Hcur.
    unfold currency_of. by destruct (is_text m HK).
Qed.

End LedgerStore.

Section Valuation.
Context {num : Type} `{PyNum num}.
Local Abbreviation asset := (gmap str (jvalue num)).
Implicit Types (a : asset) (rate s p c : num).

Lemma calculate_return_Ok c p :
  calculate_return c p =
    Ok (if num_eqb c zero then zero
        else num_mul (num_quot (num_sub p c) c) hundred).
Proof.
  unfold calculate_return, py_div.
  destruct (num_eqb c zero); done.
Qed.

Lemma valuate_Ok rate a s p c cur :
  a !! k_shares = Some (JNum s) ->
  a !! k_current_price = Some (JNum p) ->
  a !! k_cost_price = Some (JNum c) ->
  a !! k_currency = Some cur ->
  exists v,
    valuate rate a = Ok v /\
    market_value v = num_mul s p /\
    cost_value v = num_mul s c /\
    profit v = num_sub (num_mul s p) (num_mul s c) /\
    calculate_return c p = Ok (return_rate v) /\
    if is_text cur HKD then
      market_value_cny v = num_mul (market_value v) rate /\
      cost_value_cny v = num_mul (cost_value v) rate /\
      profit_cny v = num_mul (profit v) rate
    else
      market_value_cny v = market_value v /\
      cost_value_cny v = cost_value v /\
      profit_cny v = profit v.
Proof.
  intros Hs Hp Hc Hcur. unfold valuate.
  rewrite (getitem_Some _ _ _ Hs), (getitem_Some _ _ _ Hp),
    (getitem_Some _ _ _ Hc), (getitem_Some _ _ _ Hcur).
  simpl. rewrite calculate_return_Ok. simpl.
  eexists. split; [reflexivity|].
  destruct (is_text cur HKD); simpl; by repeat split.
Qed.

Lemma ensure_fields_keeps a k v :
  a !! k = Some v -> ensure_fields a !! k = Some v.
Proof. intros Hk. unfold ensure_fields. by do 2 apply setdefault_keeps. Qed.

Lemma ensure_fields_complete a : complete a -> ensure_fields a = a.
Proof.
  intros [Ht Hc]. unfold ensure_fields.
  rewrite (setdefault_present k_type) by done.
  by apply setdefault_present.
Qed.


(** The ledger as the loop leaves it: entry by entry the stored one,
    or the stored one with the two defaults written. *)
Lemma display_loop_ledger rate (l : list asset) rows t :
  length (display_loop rate l rows t).1 = length l /\
  forall i a, l !! i = Some a ->
    (display_loop rate l rows t).1 !! i = Some a \/
    (display_loop rate l rows t).1 !! i = Some (ensure_fields a).
Proof.
  revert rows t. induction l as [|b r IH]; intros rows t; simpl.
  - split; [done|]. intros i a Ha. done.
  - destruct (v ← valuate rate (ensure_fields b);
              r0 ← display_row (ensure_fields b) v; Ok (v, r0))
      as [[v r0]|e]; simpl.
    + specialize (IH (rows ++ [r0]) (accumulate t v)).
      destruct (display_loop rate r (rows ++ [r0]) (accumulate t v))
        as [r' out]; simpl in *.
      destruct IH as [Hlen Hlk]. split; [congruence|].
      intros [|i] a Ha; simpl in *.
      * injection Ha as <-. by right.
      * by apply Hlk.
    + split; [done|]. intros [|i] a Ha; simpl in *.
      * injection Ha as <-. by right.
      * by left.
Qed.

Lemma display_loop_complete rate (l : list asset) rows t :
  Forall complete l -> (display_loop rate l rows t).1 = l.
Proof.
  intros Hl. revert rows t.
  induction Hl as [|b r Hb _ IH]; intros rows t; simpl; [done|].
  rewrite (ensure_fields_complete _ Hb).
  destruct (v ← valuate rate b; r0 ← display_row b v; Ok (v, r0))
    as [[v r0]|e]; simpl; [|done].
  specialize (IH (rows ++ [r0]) (accumulate t v)).
  destruct (display_loop rate r (rows ++ [r0]) (accumulate t v))
    as [r' out]; simpl in *.
  by rewrite IH.
Qed.

Lemma load_complete (x : @file num) l :
  load_portfolio x = Ok l -> Forall complete l.
Proof.
  destruct x as [x|]; simpl; [|by intros [= <-]].
  intros Hl. apply Forall_lookup. intros i a' Ha'.
  apply for_each_lookup in Hl as [Hlen Hlk].
  destruct (x !! i) as [a|] eqn:Ha.
  - destruct (Hlk _ _ Ha) as (y & Hy & Hm). rewrite Ha' in Hy.
    injection Hy as <-. destruct (migrate_inv _ _ Hm) as (m & _ & ->).
    split.
    + rewrite lookup_setdefault_ne by distinct. rewrite lookup_setdefault. eauto.
    + rewrite lookup_setdefault. eauto.
  - apply lookup_ge_None in Ha. apply lookup_lt_Some in Ha'. lia.
Qed.

(** All the display loop can write are the two defaults.  Entry by
    entry the ledger it leaves is the given entry with type 股票 and
    currency CNY filled in where they were absent; every field keeps
    its value and no entry is added or removed.  A ledger whose entries
    all name type and currency, and so every ledger Load returns, is
    left exactly as it was. *)
Lemma render_frame rate (l : list asset) :
  (length (render rate l).1 = length l /\
   forall i a, l !! i = Some a ->
     exists a', (render rate l).1 !! i = Some a' /\
       (a' = a \/ a' = ensure_fields a) /\
       forall k v, a !! k = Some v -> a' !! k = Some v)
  /\ (Forall complete l -> (render rate l).1 = l)
  /\ (forall x : @file num, load_portfolio x = Ok l -> (render rate l).1 = l).
Proof.
  unfold render. split; [|split].
  - destruct (display_loop_ledger rate l [] no_totals) as [Hlen Hlk].
    split; [done|]. intros i a Ha.
    destruct (Hlk _ _ Ha) as [Hi|Hi]; rewrite Hi; eexists; (split; [done|]).
    + split; [by left|done].
    + split; [by right|]. intros k v. apply ensure_fields_keeps.
  - apply display_loop_complete.
  - intros x Hx. apply display_loop_complete. by eapply load_complete.
Qed.


End Valuation.

Section MarketData.
Context {num : Type} `{PyNum num} `{PyRound num}.
Implicit Types (env : @provider num) (w : @world num) (now : Z).

Ltac run_io := unfold mbind, io_bind, mret, io_ret, call; simpl.

Lemma cache_data_miss {V} ttl now (slot : world -> option (cached V))
    store (body : io V) w :
  no_fresh ttl now (slot w) ->
  cache_data ttl now slot store body w
  = ((body w).1, store {| stored_at := now; stored := (body w).1 |} (body w).2).
Proof.
  intros Hmiss. unfold cache_data. destruct (body w) as [v w'] eqn:Hb; simpl.
  destruct (slot w) as [c|] eqn:Hc; [|done].
  by rewrite (Hmiss c eq_refl).
Qed.

Lemma cache_data_hit {V} ttl now (slot : world -> option (cached V))
    store (body : io V) w c :
  slot w = Some c -> fresh ttl now c = true ->
  cache_data ttl now slot store body w = (stored c, w).
Proof. intros Hc Hf. unfold cache_data. by rewrite Hc, Hf. Qed.

(** C3, as amended: when the rate service fails the lookup returns
    the constant 0.92, whether or not a rate was fetched before, and
    stores that constant as the current rate.  A rate fetched earlier is
    returned only while it is within the freshness window, and then the
    service is not called at all. *)
Theorem rate_fallback env now w e :
  exchange_rate env = Raise e ->
  (no_fresh 3600 now (rate_cache w) ->
     get_hkd_to_cny_rate env now w
     = (DEFAULT_RATE,
        set_rate_cache (Some {| stored_at := now; stored := DEFAULT_RATE |})
          (sent RateRequest w)))
  /\ (forall c, rate_cache w = Some c -> fresh 3600 now c = true ->
        get_hkd_to_cny_rate env now w = (stored c, w)).
Proof.
  intros He. split.
  - intros Hmiss. unfold get_hkd_to_cny_rate.
    rewrite cache_data_miss by done.
    unfold get_hkd_to_cny_rate_body. run_io. by rewrite He.
  - intros c Hc Hf. unfold get_hkd_to_cny_rate. by apply cache_data_hit.
Qed.

Lemma stock_body_fails env symbol market w :
  stock_call_fails env symbol market ->
  (get_stock_info_body env symbol market w).1
  = {| q_name := JStr (Text.strip symbol);
       q_current_price := JNum zero;
       q_currency := if Text.eqb market HK then HKD else CNY |}.
Proof.
  unfold stock_call_fails, get_stock_info_body, stock_try.
  destruct (Text.eqb market A_SHARE); intros [e He]; run_io; by rewrite He.
Qed.

Lemma etf_body_fails env symbol w e :
  fund_etf_spot_em env = Raise e ->
  (get_etf_info_body env symbol w).1
  = {| q_name := JStr (ETF_PREFIX ++ Text.zfill 6 (Text.strip symbol));
       q_current_price := JNum zero;
       q_currency := CNY |}.
Proof.
  intros He. unfold get_etf_info_body, etf_try. run_io. by rewrite He.
Qed.

(** C5, as amended: when the upstream call fails, each lookup returns
    a placeholder with price 0 instead of raising.  The stock lookup
    names it by the symbol with surrounding white space stripped and
    gives it the currency of the market (HKD for 港股, CNY otherwise).
    The fund lookup names it "ETF基金 " followed by the stripped symbol
    padded with zeros to six characters, with currency CNY. *)
Theorem quote_placeholder env now symbol market w :
  (stock_call_fails env symbol market ->
   no_fresh 300 now (stock_cache w !! (symbol, market)) ->
   (get_stock_info env now symbol market w).1
   = {| q_name := JStr (Text.strip symbol);
        q_current_price := JNum zero;
        q_currency := if Text.eqb market HK then HKD else CNY |})
  /\ ((exists e, fund_etf_spot_em env = Raise e) ->
      no_fresh 300 now (etf_cache w !! symbol) ->
      (get_etf_info env now symbol w).1
      = {| q_name := JStr (ETF_PREFIX ++ Text.zfill 6 (Text.strip symbol));
           q_current_price := JNum zero;
           q_currency := CNY |}).
Proof.
  split.
  - intros Hf Hmiss. unfold get_stock_info.
    rewrite cache_data_miss by exact Hmiss. simpl. by apply stock_body_fails.
  - intros [e He] Hmiss. unfold get_etf_info.
    rewrite cache_data_miss by exact Hmiss. simpl.
    exact (etf_body_fails env symbol w e He).
Qed.

(** C6: a submitted form with shares <= 0, or cost price <= 0, or an
    empty symbol is answered with the validation error, and the state
    is the one before: the ledger in the session, the data file, the
    memo tables and the list of upstream calls are all unchanged. *)
Theorem add_rejected `{!PyNumOrder num} env now (f : @add_form num) w :
  submitted f = true ->
  num_leb (shares f) zero = true \/ num_leb (cost_price f) zero = true
    \/ symbol f = [] ->
  main_add env now f w = (ValidationError, w).
Proof.
  intros Hsub Hbad. unfold main_add. rewrite Hsub. simpl.
  assert (Hcond : Text.truthy (symbol f) && num_ltb zero (shares f)
                  && num_ltb zero (cost_price f) = false).
  { unfold zero in *. destruct Hbad as [Hs|[Hc|Hy]].
    - rewrite (num_le0_not_gt0 _ Hs). by rewrite andb_false_r.
    - rewrite (num_le0_not_gt0 _ Hc). by rewrite andb_false_r.
    - by rewrite Hy. }
  by rewrite Hcond.
Qed.

Lemma cache_data_portfolio {V} ttl now (slot : world -> option (cached V))
    store (body : io V) w :
  (forall w0, portfolio (body w0).2 = portfolio w0) ->
  (forall c w0, portfolio (store c w0) = portfolio w0) ->
  portfolio (cache_data ttl now slot store body w).2 = portfolio w.
Proof.
  intros Hb Hs. unfold cache_data. specialize (Hb w).
  destruct (body w) as [v w'] eqn:E; simpl in *.
  destruct (slot w) as [c|]; [destruct (fresh ttl now c)|]; simpl;
    try done; by rewrite Hs.
Qed.

Lemma get_stock_info_portfolio env now symbol market w :
  portfolio (get_stock_info env now symbol market w).2 = portfolio w.
Proof.
  unfold get_stock_info. apply cache_data_portfolio; [|done].
  intros w0. unfold get_stock_info_body, stock_try.
  by destruct (Text.eqb market A_SHARE).
Qed.

Lemma get_etf_info_portfolio env now symbol w :
  portfolio (get_etf_info env now symbol w).2 = portfolio w.
Proof. unfold get_etf_info. by apply cache_data_portfolio. Qed.

Lemma new_asset_complete (f : @add_form num) q : complete (new_asset f q).
Proof.
  split; unfold new_asset.
  - exists (JStr (asset_type f)).
    rewrite lookup_insert_ne by distinct. apply lookup_insert_eq.
  - exists (JStr (q_currency q)).
    do 7 (rewrite lookup_insert_ne by distinct). apply lookup_insert_eq.
Qed.

(** The add form keeps the ledger complete: the entry it appends names
    its type and its currency. *)
Lemma main_add_complete env now (f : @add_form num) w :
  Forall complete (portfolio w) ->
  Forall complete (portfolio (main_add env now f w).2).
Proof.
  intros Hw. unfold main_add.
  destruct (submitted f && Text.truthy (symbol f) && num_ltb zero (shares f)
            && num_ltb zero (cost_price f)).
  - unfold mbind, io_bind.
    destruct (Text.eqb (asset_type f) ETF).
    + pose proof (get_etf_info_portfolio env now (symbol f) w) as Hp.
      destruct (get_etf_info env now (symbol f) w) as [q w']; simpl in *.
      apply Forall_app. split; [by rewrite Hp|].
      apply List.Forall_cons; [apply new_asset_complete|apply List.Forall_nil].
    + pose proof (get_stock_info_portfolio env now (symbol f) (market f) w)
        as Hp.
      destruct (get_stock_info env now (symbol f) (market f) w) as [q w'];
        simpl in *.
      apply Forall_app. split; [by rewrite Hp|].
      apply List.Forall_cons; [apply new_asset_complete|apply List.Forall_nil].
  - by destruct (submitted f).
Qed.

Lemma cache_data_DATA_FILE {V} ttl now (slot : world -> option (cached V))
    store (body : io V) w :
  (forall w0, DATA_FILE (body w0).2 = DATA_FILE w0) ->
  (forall c w0, DATA_FILE (store c w0) = DATA_FILE w0) ->
  DATA_FILE (cache_data ttl now slot store body w).2 = DATA_FILE w.
Proof.
  intros Hb Hs. unfold cache_data. specialize (Hb w).
  destruct (body w) as [v w'] eqn:E; simpl in *.
  destruct (slot w) as [c|]; [destruct (fresh ttl now c)|]; simpl;
    try done; by rewrite Hs.
Qed.

(** A script run that only displays: the data file is not written,
    and a complete ledger stays as it is in the session. *)
Lemma main_display_frame env now w :
  DATA_FILE (main_display env now w).2 = DATA_FILE w
  /\ (Forall complete (portfolio w) ->
      portfolio (main_display env now w).2 = portfolio w).
Proof.
  unfold main_display. destruct (portfolio w) as [|a l] eqn:Hw; [done|].
  pose proof (cache_data_portfolio 3600 now rate_cache
                (fun e => set_rate_cache (Some e))
                (get_hkd_to_cny_rate_body env) w
                (fun _ => eq_refl) (fun _ _ => eq_refl)) as Hp.
  pose proof (cache_data_DATA_FILE 3600 now rate_cache
                (fun e => set_rate_cache (Some e))
                (get_hkd_to_cny_rate_body env) w
                (fun _ => eq_refl) (fun _ _ => eq_refl)) as Hd.
  fold (get_hkd_to_cny_rate env now) in Hp, Hd.
  destruct (get_hkd_to_cny_rate env now w) as [rate w1]; simpl in *.
  pose proof (display_loop_complete rate (portfolio w1) [] no_totals) as Hl.
  fold (render rate (portfolio w1)) in Hl.
  destruct (render rate (portfolio w1)) as [l' out]; simpl in *.
  split; [done|]. intros Hc. rewrite Hp, Hw in Hl. rewrite Hl; [|done].
  by rewrite Hw in Hp.
Qed.

End MarketData.

#[export] Instance Q_order : PyNumOrder Q.
Proof. constructor. intros x Hx. simpl in *. by rewrite Hx. Qed.

#[export] Instance float_order : PyNumOrder float.
Proof.
  constructor. intros x. simpl.
  change (float_of_Z 0) with 0%float.
  rewrite leb_spec, ltb_spec. unfold SFleb, SFltb.
  change (Prim2SF 0) with (S754_zero false).
  destruct (Prim2SF x) as [s|s| |s m e]; simpl; try destruct s; simpl;
    congruence.
Qed.

(** C3, as stated, fails: the rate 0.91 was fetched at time 0; at time
    4000 the service is called again and fails, and the lookup returns
    0.92, not the rate fetched before. *)
Lemma rate_last_known_good_lost :
  (get_hkd_to_cny_rate (num := Q) (provider_rate (decimal 91 2)) 0
     empty_world).1 = decimal 91 2
  /\ requests (rate_then_outage (num := Q)).2 = [RateRequest; RateRequest]
  /\ (rate_then_outage (num := Q)).1 = DEFAULT_RATE
  /\ ~ Qeq (rate_then_outage (num := Q)).1 (decimal 91 2).
Proof. repeat split; by vm_compute. Qed.

Lemma rate_fallback_witness :
  get_hkd_to_cny_rate (num := Q) provider_down 4000 empty_world
  = (DEFAULT_RATE,
     set_rate_cache (Some {| stored_at := 4000; stored := DEFAULT_RATE |})
       (sent RateRequest empty_world)).
Proof.
  apply (proj1 (rate_fallback (num := Q) provider_down 4000 empty_world
                  ProviderError eq_refl)).
  intros c Hc. discriminate Hc.
Defined.

(** C5, as stated, fails for the fund lookup, whose placeholder is
    named "ETF基金 159691" and not "159691", and for a stock symbol typed
    with blanks around it, which the placeholder names without them. *)
Lemma placeholder_name_is_not_the_symbol :
  q_name (get_etf_info (num := Q) provider_down 0
            (Text.utf8 "159691"%string) empty_world).1
    = JStr (Text.utf8 "ETF基金 159691"%string)
  /\ q_name (get_etf_info (num := Q) provider_down 0
               (Text.utf8 "159691"%string) empty_world).1
     <> JStr (Text.utf8 "159691"%string)
  /\ q_name (get_stock_info (num := Q) provider_down 0
               (Text.utf8 " 700 "%string) HK empty_world).1
     = JStr (Text.utf8 "700"%string)
  /\ q_name (get_stock_info (num := Q) provider_down 0
               (Text.utf8 " 700 "%string) HK empty_world).1
     <> JStr (Text.utf8 " 700 "%string).
Proof. repeat split; by vm_compute. Qed.

Lemma quote_placeholder_witness :
  (get_stock_info (num := Q) provider_down 0
     (Text.utf8 "00700"%string) HK empty_world).1
  = {| q_name := JStr (Text.strip (Text.utf8 "00700"%string));
       q_current_price := JNum zero;
       q_currency := if Text.eqb HK HK then HKD else CNY |}.
Proof.
  apply (proj1 (quote_placeholder (num := Q) provider_down 0
                  (Text.utf8 "00700"%string) HK empty_world)).
  - exists ProviderError. reflexivity.
  - intros c Hc. discriminate Hc.
Defined.

Lemma add_rejected_witness :
  main_add (num := Q) provider_down 0
    (stock_form (Text.utf8 "00700"%string) HK (inject_Z 0) (inject_Z 20))
    empty_world
  = (ValidationError, empty_world).
Proof.
  apply (add_rejected (num := Q)); [reflexivity|]. left. reflexivity.
Defined.

(** C2: for every entry with numeric shares and prices the values in
    the reporting currency are the native ones times the rate when the
    currency is HKD, and the native ones otherwise.  For the ledger of
    one domestic stock (100 shares, cost 10, price 12) and one Hong Kong
    stock (50 shares, cost 20, price 18) at the rate 0.92 the totals are
    2028, 1920 and 108 and the total return is 5.625 per cent, in exact
    arithmetic and in binary64 alike. *)
Theorem valuation_in_reporting_currency :
  (forall (num : Type) (N : PyNum num) (rate s p c : num)
          (a : gmap str (jvalue num)) (cur : jvalue num),
     a !! k_shares = Some (JNum s) ->
     a !! k_current_price = Some (JNum p) ->
     a !! k_cost_price = Some (JNum c) ->
     a !! k_currency = Some cur ->
     exists v,
       valuate rate a = Ok v /\
       market_value v = num_mul s p /\
       cost_value v = num_mul s c /\
       profit v = num_sub (market_value v) (cost_value v) /\
       if is_text cur HKD then
         market_value_cny v = num_mul (market_value v) rate /\
         cost_value_cny v = num_mul (cost_value v) rate /\
         profit_cny v = num_mul (profit v) rate
       else
         market_value_cny v = market_value v /\
         cost_value_cny v = cost_value v /\
         profit_cny v = profit v)
  /\ (exists rows t r,
        (render (num := Q) (decimal 92 2) two_stocks).2 = Ok (rows, t) /\
        Qeq (total_assets t) (inject_Z 2028) /\
        Qeq (total_investment t) (inject_Z 1920) /\
        Qeq (total_profit t) (inject_Z 108) /\
        total_return t = Ok r /\ Qeq r (Qmake 5625 1000))
  /\ (exists rows t,
        (render (num := float) (decimal 92 2) two_stocks).2 = Ok (rows, t) /\
        total_assets t = 2028%float /\
        total_investment t = 1920%float /\
        total_profit t = 108%float /\
        total_return t = Ok 5.625%float).
Proof.
  split; [|split].
  - intros num N rate s p c a cur Hs Hp Hc Hcur.
    destruct (valuate_Ok rate a s p c cur Hs Hp Hc Hcur)
      as (v & Hv & Hmv & Hcv & Hpr & _ & Hcny).
    exists v. repeat split; try done. congruence.
  - do 3 eexists. split; [vm_compute; reflexivity|].
    repeat split; by vm_compute.
  - do 2 eexists. split; [vm_compute; reflexivity|].
    repeat split; by vm_compute.
Qed.

Lemma valuation_in_reporting_currency_witness :
  exists v,
    valuate (num := Q) (decimal 92 2) foreign_stock = Ok v /\
    market_value v = num_mul (inject_Z 50) (inject_Z 18) /\
    cost_value v = num_mul (inject_Z 50) (inject_Z 20) /\
    profit v = num_sub (market_value v) (cost_value v) /\
    if is_text (num := Q) (JStr HKD) HKD then
      market_value_cny v = num_mul (market_value v) (decimal 92 2) /\
      cost_value_cny v = num_mul (cost_value v) (decimal 92 2) /\
      profit_cny v = num_mul (profit v) (decimal 92 2)
    else
      market_value_cny v = market_value v /\
      cost_value_cny v = cost_value v /\
      profit_cny v = profit v.
Proof.
  apply (proj1 valuation_in_reporting_currency Q Q_num (decimal 92 2)
           (inject_Z 50) (inject_Z 18) (inject_Z 20) foreign_stock (JStr HKD));
    by vm_compute.
Defined.


(** C4, as stated, fails: a 港股 record stored with currency CNY is
    returned by Load exactly as stored, so market and currency still
    disagree after the load. *)
Lemma load_keeps_stored_mismatch :
  load_portfolio (Some [mismatched_hk_stock (num := Q)])
    = Ok [mismatched_hk_stock]
  /\ mismatched_hk_stock (num := Q) !! k_market = Some (JStr HK)
  /\ mismatched_hk_stock (num := Q) !! k_currency = Some (JStr CNY)
  /\ currency_agrees (mismatched_hk_stock (num := Q)) = false.
Proof.
  split; [|repeat split; by vm_compute].
  rewrite (load_singleton _ (JStr HK)) by (by vm_compute).
  rewrite (setdefault_present k_type) by (eexists; by vm_compute).
  rewrite setdefault_present by (eexists; by vm_compute). done.
Qed.

Lemma load_currency_witness :
  exists a' m,
    [setdefault k_currency (currency_of (JStr HK))
       (setdefault k_type (JStr STOCK) (legacy_hk_stock (num := Q)))] !! 0%nat
      = Some a' /\
    a' !! k_market = Some m /\
    (forall c, legacy_hk_stock (num := Q) !! k_currency = Some c ->
               a' !! k_currency = Some c) /\
    (legacy_hk_stock (num := Q) !! k_currency = None ->
       a' !! k_currency = Some (currency_of m) /\ currency_agrees a' = true).
Proof.
  apply (load_currency [legacy_hk_stock] _ 0%nat legacy_hk_stock).
  - apply (load_singleton _ (JStr HK)). by vm_compute.
  - reflexivity.
Defined.

Lemma migration_idempotent_witness :
  exists l,
    load_portfolio (Some [untyped_legacy_stock (num := Q)]) = Ok l /\
    load_portfolio (save_portfolio l) = Ok l /\
    length l = 1%nat /\
    forall i a, [untyped_legacy_stock (num := Q)] !! i = Some a ->
      exists a' m,
        l !! i = Some a' /\ a !! k_market = Some m /\
        a' !! k_type = Some (default (JStr STOCK) (a !! k_type)) /\
        a' !! k_currency = Some (default (currency_of m) (a !! k_currency)) /\
        forall k, k <> k_type -> k <> k_currency -> a' !! k = a !! k.
Proof.
  apply (proj1 (proj2 (migration_idempotent (num := Q)))).
  apply List.Forall_cons; [|apply List.Forall_nil]. exists (JStr HK). by vm_compute.
Defined.

(** * Further properties of the ledger store and the display loop *)

Section StoreAndDisplay.
Context {num : Type} `{PyNum num}.
Local Abbreviation asset := (gmap str (jvalue num)).
Implicit Types (a : asset) (rate : num).

Lemma migrate_no_market a :
  a !! k_market = None -> migrate a = Raise (KeyError k_market).
Proof.
  intros Hm. unfold migrate, getitem.
  rewrite lookup_setdefault_ne by distinct. by rewrite Hm.
Qed.

(** X1: Load raises KeyError('market') as soon as a stored record has
    no market, also when that record already has its type and its
    currency; nothing is returned for the records before it. *)
Theorem load_missing_market (l1 l2 : list asset) a :
  Forall (fun b => is_Some (b !! k_market)) l1 ->
  a !! k_market = None ->
  load_portfolio (Some (l1 ++ a :: l2)) = Raise (KeyError k_market).
Proof.
  intros Hl1 Ha. simpl.
  induction Hl1 as [|b r [m Hm] _ IH]; simpl.
  - by rewrite (migrate_no_market _ Ha).
  - rewrite (migrate_Ok _ _ Hm). simpl. by rewrite IH.
Qed.

Lemma migrate_complete a :
  complete a -> is_Some (a !! k_market) -> migrate a = Ok a.
Proof.
  intros [Ht Hc] [m Hm]. rewrite (migrate_Ok _ _ Hm).
  rewrite (setdefault_present k_type) by done.
  by rewrite setdefault_present.
Qed.

Lemma for_each_same {A} (f : A -> result A) (l : list A) :
  Forall (fun x => f x = Ok x) l -> for_each f l = Ok l.
Proof.
  induction 1 as [|x r Hx _ IH]; simpl; [done|].
  rewrite Hx. simpl. by rewrite IH.
Qed.

(** X2: a ledger whose entries all have type, currency and market is
    read back by Load exactly as Save wrote it. *)
Theorem save_load_round_trip (l : list asset) :
  Forall (fun a => complete a /\ is_Some (a !! k_market)) l ->
  load_portfolio (save_portfolio l) = Ok l.
Proof.
  intros Hl. unfold save_portfolio, load_portfolio.
  apply for_each_same. eapply Forall_impl; [exact Hl|].
  intros a [Hc Hm]. by apply migrate_complete.
Qed.

Lemma ensure_fields_idem a : ensure_fields (ensure_fields a) = ensure_fields a.
Proof.
  apply ensure_fields_complete. unfold ensure_fields. split.
  - rewrite lookup_setdefault_ne by distinct. rewrite lookup_setdefault. eauto.
  - rewrite lookup_setdefault. eauto.
Qed.

Lemma iteration_ensured rate a :
  iteration rate (ensure_fields a) = iteration rate a.
Proof. unfold iteration. by rewrite ensure_fields_idem. Qed.

Lemma display_loop_cons rate a rest rows t :
  display_loop rate (a :: rest) rows t =
    match iteration rate a with
    | Raise e => (ensure_fields a :: rest, Raise e)
    | Ok (v, r) =>
        ((ensure_fields a
          :: (display_loop rate rest (rows ++ [r]) (accumulate t v)).1),
         (display_loop rate rest (rows ++ [r]) (accumulate t v)).2)
    end.
Proof.
  simpl. unfold iteration.
  destruct (v ← valuate rate (ensure_fields a);
            r ← display_row (ensure_fields a) v; Ok (v, r))
    as [[v r]|e]; [|done].
  by destruct (display_loop rate rest (rows ++ [r]) (accumulate t v)).
Qed.

Lemma display_loop_stops rate (l1 l2 : list asset) a e rows t :
  Forall (fun b => exists vr, iteration rate b = Ok vr) l1 ->
  iteration rate a = Raise e ->
  display_loop rate (l1 ++ a :: l2) rows t
  = ((ensure_fields <$> l1) ++ ensure_fields a :: l2, Raise e).
Proof.
  intros Hl1 Ha. revert rows t.
  induction Hl1 as [|b r [[v r0] Hb] _ IH]; intros rows t.
  - simpl app. rewrite display_loop_cons, Ha. done.
  - change ((b :: r) ++ a :: l2) with (b :: (r ++ a :: l2)).
    rewrite display_loop_cons, Hb. by rewrite IH.
Qed.

(** X4: the display loop stops at the first entry it cannot show (a
    missing or non-numeric field): the exception leaves the loop, the
    entries up to and including that one have had their defaults
    written, and the entries after it are not touched. *)
Theorem render_stops rate (l1 l2 : list asset) a e :
  Forall (fun b => exists vr, iteration rate b = Ok vr) l1 ->
  iteration rate a = Raise e ->
  render rate (l1 ++ a :: l2)
  = ((ensure_fields <$> l1) ++ ensure_fields a :: l2, Raise e).
Proof. intros Hl1 Ha. unfold render. by apply display_loop_stops. Qed.

Lemma display_loop_again rate (l : list asset) rows t rows' t' :
  (display_loop rate (display_loop rate l rows t).1 rows' t').1
  = (display_loop rate l rows t).1.
Proof.
  revert rows t rows' t'. induction l as [|a r IH]; intros; [done|].
  rewrite display_loop_cons.
  destruct (iteration rate a) as [[v r0]|e] eqn:Ha; cbn [fst].
  - rewrite display_loop_cons, iteration_ensured, Ha. cbn [fst].
    by rewrite ensure_fields_idem, IH.
  - rewrite display_loop_cons, iteration_ensured, Ha. cbn [fst].
    by rewrite ensure_fields_idem.
Qed.

(** X5: displaying twice leaves the ledger as displaying once does:
    the defaults are written the first time and nothing is written
    after that, whether or not the display raised. *)
Theorem render_idempotent rate (l : list asset) :
  (render rate (render rate l).1).1 = (render rate l).1.
Proof. unfold render. apply display_loop_again. Qed.

End StoreAndDisplay.

(** * Which exceptions the arithmetic can raise *)

Section PythonFacts.
Implicit Types (n a b : Python.number) (x y : float) (z : Z).

Lemma float_gt0_ne0 x : PrimFloat.ltb 0 x = true -> PrimFloat.eqb x 0 = false.
Proof.
  rewrite FloatAxioms.ltb_spec, FloatAxioms.eqb_spec. unfold SFltb, SFeqb.
  change (Prim2SF 0) with (S754_zero false).
  destruct (Prim2SF x) as [s|s| |s m e]; simpl; try destruct s; simpl;
    congruence.
Qed.

Lemma gt0_not_eq0 n : Python.gt0 n = true -> Python.eq0 n = false.
Proof.
  destruct n as [z|x]; simpl.
  - intros Hz. apply Z.eqb_neq. apply Z.ltb_lt in Hz. lia.
  - apply float_gt0_ne0.
Qed.

Lemma to_float_raises n e : Python.to_float n = Raise e -> e = OverflowError.
Proof.
  destruct n as [z|x]; simpl; [|discriminate].
  destruct (PrimFloat.is_infinity (float_of_Z z)); congruence.
Qed.

Lemma to_float_zero : Python.to_float (Python.Int 0) = Ok 0%float.
Proof. reflexivity. Qed.

Lemma to_float_hundred : Python.to_float (Python.Int 100) = Ok 100%float.
Proof. reflexivity. Qed.

Lemma float_or_zero_convertible n :
  Python.float_or_zero n -> Python.convertible n.
Proof.
  destruct n as [z|x]; simpl.
  - intros ->. exists 0%float. apply to_float_zero.
  - intros _. by exists x.
Qed.

Lemma arith_raises int_op float_op a b e :
  Python.arith int_op float_op a b = Raise e -> e = OverflowError.
Proof.
  assert (Hmixed : (x ← Python.to_float a; y ← Python.to_float b;
                    Ok (Python.Float (float_op x y))) = Raise e ->
                   e = OverflowError).
  { destruct (Python.to_float a) as [x|e1] eqn:Ha; simpl.
    - destruct (Python.to_float b) as [y|e2] eqn:Hb; simpl; [discriminate|].
      intros [= <-]. by eapply to_float_raises.
    - intros [= <-]. by eapply to_float_raises. }
  destruct a as [z1|x1], b as [z2|x2]; try exact Hmixed. discriminate.
Qed.

Lemma arith_floats int_op float_op a b x y :
  Python.to_float a = Ok x -> Python.to_float b = Ok y ->
  (exists z1 z2, a = Python.Int z1 /\ b = Python.Int z2 /\
     Python.arith int_op float_op a b = Ok (Python.Int (int_op z1 z2)))
  \/ Python.arith int_op float_op a b = Ok (Python.Float (float_op x y)).
Proof.
  intros Ha Hb.
  destruct a as [z1|x1], b as [z2|x2];
    [left; by exists z1, z2|right..];
    unfold Python.arith; rewrite Ha, Hb; reflexivity.
Qed.

Lemma arith_float_or_zero int_op float_op a b :
  int_op 0%Z 0%Z = 0%Z ->
  Python.float_or_zero a -> Python.float_or_zero b ->
  exists n, Python.arith int_op float_op a b = Ok n /\ Python.float_or_zero n.
Proof.
  intros H0 Ha Hb.
  destruct (float_or_zero_convertible a Ha) as [x Hx].
  destruct (float_or_zero_convertible b Hb) as [y Hy].
  destruct (arith_floats int_op float_op a b x y Hx Hy)
    as [(z1 & z2 & -> & -> & ->)| ->].
  - simpl in Ha, Hb. subst. eexists. split; [done|]. exact H0.
  - eexists. split; [done|]. exact I.
Qed.

Lemma mul_shares s p :
  Python.convertible s -> Python.float_or_zero p ->
  exists m, Python.mul s p = Ok m /\ Python.float_or_zero m.
Proof.
  intros [x Hx] Hp. destruct (float_or_zero_convertible p Hp) as [y Hy].
  destruct (arith_floats Z.mul PrimFloat.mul s p x y Hx Hy)
    as [(z1 & z2 & -> & -> & E)|E]; unfold Python.mul; rewrite E.
  - simpl in Hp. subst. eexists. split; [done|]. simpl. lia.
  - eexists. split; [done|]. exact I.
Qed.

Lemma mul_rate m r :
  Python.float_or_zero m -> Python.convertible r ->
  exists n, Python.mul m r = Ok n /\ Python.float_or_zero n.
Proof.
  intros Hm [y Hy]. destruct (float_or_zero_convertible m Hm) as [x Hx].
  destruct (arith_floats Z.mul PrimFloat.mul m r x y Hx Hy)
    as [(z1 & z2 & -> & -> & E)|E]; unfold Python.mul; rewrite E.
  - simpl in Hm. subst. eexists. split; [done|]. reflexivity.
  - eexists. split; [done|]. exact I.
Qed.

Lemma truediv_raises a b e :
  Python.eq0 b = false -> Python.truediv a b = Raise e -> e = OverflowError.
Proof.
  intros Hb.
  assert (Hmixed : (x ← Python.to_float a; y ← Python.to_float b;
                    if Python.eq0 b then Raise ZeroDivisionError
                    else Ok (Python.Float (PrimFloat.div x y))) = Raise e ->
                   e = OverflowError).
  { rewrite Hb.
    destruct (Python.to_float a) as [x|e1] eqn:Ha; simpl.
    - destruct (Python.to_float b) as [y|e2] eqn:Hy; simpl; [discriminate|].
      intros [= <-]. by eapply to_float_raises.
    - intros [= <-]. by eapply to_float_raises. }
  destruct a as [z1|x1], b as [z2|x2]; try exact Hmixed.
  simpl in *. rewrite Hb.
  destruct (PrimFloat.is_infinity (Python.int_truediv z1 z2)); congruence.
Qed.

Lemma truediv_float a x y :
  Python.to_float a = Ok x -> PrimFloat.eqb y 0 = false ->
  Python.truediv a (Python.Float y) = Ok (Python.Float (PrimFloat.div x y)).
Proof.
  intros Ha Hy. destruct a as [z|x']; simpl in *; rewrite ?Ha; simpl;
    rewrite Hy; congruence.
Qed.

Lemma calculate_return_raises c p e :
  Python.calculate_return c p = Raise e -> e = OverflowError.
Proof.
  unfold Python.calculate_return.
  destruct (Python.eq0 c) eqn:Hc; [discriminate|].
  destruct (Python.sub p c) as [d|e1] eqn:Hd; simpl.
  - destruct (Python.truediv d c) as [q|e2] eqn:Hq; simpl.
    + apply arith_raises.
    + intros [= <-]. by eapply truediv_raises.
  - intros [= <-]. by eapply arith_raises.
Qed.

Lemma calculate_return_floats x y :
  Python.calculate_return (Python.Float x) (Python.Float y)
  = Ok (if PrimFloat.eqb x 0 then Python.Int 0
        else Python.Float
               (PrimFloat.mul (PrimFloat.div (PrimFloat.sub y x) x) 100)).
Proof.
  unfold Python.calculate_return. simpl.
  destruct (PrimFloat.eqb x 0) eqn:Hx; [done|]. simpl. rewrite ?Hx.
  reflexivity.
Qed.

(** On two floats the function on Python's numbers and the function on
    binary64 above compute the same value (Python returns the int 0
    where the latter has the float 0). *)
Lemma calculate_return_agrees x y :
  exists r,
    Python.calculate_return (Python.Float x) (Python.Float y) = Ok r /\
    Python.to_float r = calculate_return (num := float) x y.
Proof.
  rewrite calculate_return_floats, calculate_return_Ok.
  unfold zero, hundred. simpl.
  change (float_of_Z 0) with 0%float. change (float_of_Z 100) with 100%float.
  destruct (PrimFloat.eqb x 0); eexists; (split; [reflexivity|]); reflexivity.
Qed.

Lemma calculate_return_float_or_zero c p :
  Python.float_or_zero c -> Python.float_or_zero p ->
  exists r, Python.calculate_return c p = Ok r /\ Python.float_or_zero r.
Proof.
  intros Hc Hp. unfold Python.calculate_return.
  destruct (Python.eq0 c) eqn:E; [by exists (Python.Int 0)|].
  destruct c as [z|x]; [simpl in Hc; subst; discriminate|]. simpl in E.
  destruct (float_or_zero_convertible p Hp) as [y Hy].
  destruct (arith_floats Z.sub PrimFloat.sub p (Python.Float x) y x Hy eq_refl)
    as [(z1 & z2 & _ & [=] & _)|Hd].
  unfold Python.sub. rewrite Hd. simpl. rewrite E. simpl.
  eexists. split; [reflexivity|exact I].
Qed.

(** C7, as amended: on Python's numbers calculate_return never raises
    ZeroDivisionError.  It returns 0 when the cost price equals zero;
    two floats always give a result, (current - cost) / cost * 100 in
    float arithmetic; so does a float cost price with any current price
    that converts to a float.  Two ints give the correctly rounded
    quotient times 100, unless that quotient is beyond the floats.  The
    only exception the function can raise is OverflowError. *)
Theorem calculate_return_no_zero_division
    (cost_price current_price : Python.number) :
  Python.calculate_return cost_price current_price <> Raise ZeroDivisionError
  /\ (Python.eq0 cost_price = true ->
      Python.calculate_return cost_price current_price = Ok (Python.Int 0))
  /\ (forall x y,
        cost_price = Python.Float x -> current_price = Python.Float y ->
        Python.calculate_return cost_price current_price
        = Ok (if PrimFloat.eqb x 0 then Python.Int 0
              else Python.Float
                     (PrimFloat.mul (PrimFloat.div (PrimFloat.sub y x) x) 100)))
  /\ (forall x,
        cost_price = Python.Float x -> Python.convertible current_price ->
        exists r, Python.calculate_return cost_price current_price = Ok r)
  /\ (forall c p,
        cost_price = Python.Int c -> current_price = Python.Int p ->
        c <> 0%Z ->
        Python.calculate_return cost_price current_price
        = if PrimFloat.is_infinity (Python.int_truediv (p - c) c)
          then Raise OverflowError
          else Ok (Python.Float
                     (PrimFloat.mul (Python.int_truediv (p - c) c) 100)))
  /\ (forall e,
        Python.calculate_return cost_price current_price = Raise e ->
        e = OverflowError).
Proof.
  split; [|split; [|split; [|split; [|split]]]].
  - intros E. apply calculate_return_raises in E. discriminate.
  - intros E. unfold Python.calculate_return. by rewrite E.
  - intros x y -> ->. apply calculate_return_floats.
  - intros x -> [y Hy]. unfold Python.calculate_return.
    destruct (Python.eq0 (Python.Float x)) eqn:E; [eauto|]. simpl in E.
    destruct (arith_floats Z.sub PrimFloat.sub current_price (Python.Float x)
                y x Hy eq_refl) as [(z1 & z2 & _ & [=] & _)|Hd].
    unfold Python.sub. rewrite Hd. simpl. rewrite E. simpl. eauto.
  - intros c p -> -> Hc. unfold Python.calculate_return. simpl.
    apply Z.eqb_neq in Hc. rewrite Hc. simpl.
    by destruct (PrimFloat.is_infinity (Python.int_truediv (p - c) c)).
  - intros e. apply calculate_return_raises.
Qed.

Lemma total_return_raises (t : @totals Python.number) e :
  Python.total_return t = Raise e -> e = OverflowError.
Proof.
  unfold Python.total_return.
  destruct (Python.gt0 (total_investment t)) eqn:E; [|discriminate].
  apply gt0_not_eq0 in E.
  destruct (Python.truediv (total_profit t) (total_investment t))
    as [q|e1] eqn:Hq; simpl.
  - apply arith_raises.
  - intros [= <-]. by eapply truediv_raises.
Qed.

(** X3: the percentage shown with the total profit never raises
    ZeroDivisionError.  It is 0 unless the total cost is positive; for
    float totals with a positive total cost it is total profit / total
    cost * 100 in float arithmetic; the only exception it can raise is
    OverflowError, on an int total too large for a float. *)
Theorem total_return_no_zero_division (t : @totals Python.number) :
  Python.total_return t <> Raise ZeroDivisionError
  /\ (Python.gt0 (total_investment t) = false ->
      Python.total_return t = Ok (Python.Int 0))
  /\ (forall x y,
        total_profit t = Python.Float x ->
        total_investment t = Python.Float y ->
        PrimFloat.ltb 0 y = true ->
        Python.total_return t
        = Ok (Python.Float (PrimFloat.mul (PrimFloat.div x y) 100)))
  /\ (forall e, Python.total_return t = Raise e -> e = OverflowError).
Proof.
  split; [|split; [|split]].
  - intros E. apply total_return_raises in E. discriminate.
  - intros E. unfold Python.total_return. by rewrite E.
  - intros x y Hx Hy Hpos. unfold Python.total_return. rewrite Hx, Hy.
    simpl. rewrite Hpos. simpl. by rewrite (float_gt0_ne0 y Hpos).
  - intros e. apply total_return_raises.
Qed.

Lemma format_f_Ok n : Python.float_or_zero n -> Python.format_f n = Ok tt.
Proof.
  intros Hn. destruct (float_or_zero_convertible n Hn) as [x Hx].
  unfold Python.format_f. by rewrite Hx.
Qed.

Lemma valuate_presentable (rate s p c : Python.number)
    (a : gmap str (jvalue Python.number)) (cur : jvalue Python.number) :
  Python.convertible rate ->
  a !! k_shares = Some (JNum s) -> Python.convertible s ->
  a !! k_current_price = Some (JNum p) -> Python.float_or_zero p ->
  a !! k_cost_price = Some (JNum c) -> Python.float_or_zero c ->
  a !! k_currency = Some cur ->
  exists v,
    Python.valuate rate a = Ok v /\
    Python.float_or_zero (return_rate v) /\
    Python.float_or_zero (market_value_cny v) /\
    Python.float_or_zero (cost_value_cny v) /\
    Python.float_or_zero (profit_cny v).
Proof.
  intros Hrate Hs Hsc Hp Hpz Hc Hcz Hcur. unfold Python.valuate.
  rewrite (getitem_Some _ _ _ Hs), (getitem_Some _ _ _ Hp),
    (getitem_Some _ _ _ Hc), (getitem_Some _ _ _ Hcur).
  simpl.
  destruct (mul_shares s p Hsc Hpz) as (mv & -> & Hmv). simpl.
  destruct (mul_shares s c Hsc Hcz) as (cv & -> & Hcv). simpl.
  destruct (calculate_return_float_or_zero c p Hcz Hpz) as (r & -> & Hr).
  simpl.
  destruct (arith_float_or_zero Z.sub PrimFloat.sub mv cv eq_refl Hmv Hcv)
    as (pr & Hsub & Hpr).
  unfold Python.sub. rewrite Hsub. simpl.
  destruct (is_text cur HKD).
  - destruct (mul_rate mv rate Hmv Hrate) as (mv' & -> & Hmv'). simpl.
    destruct (mul_rate cv rate Hcv Hrate) as (cv' & -> & Hcv'). simpl.
    destruct (mul_rate pr rate Hpr Hrate) as (pr' & -> & Hpr'). simpl.
    eexists. split; [reflexivity|]. done.
  - eexists. split; [reflexivity|]. done.
Qed.

Lemma accumulate_float_or_zero (t : @totals Python.number)
    (v : @valuation Python.number) :
  Python.float_or_zero (total_assets t) ->
  Python.float_or_zero (total_investment t) ->
  Python.float_or_zero (total_profit t) ->
  Python.float_or_zero (market_value_cny v) ->
  Python.float_or_zero (cost_value_cny v) ->
  Python.float_or_zero (profit_cny v) ->
  exists t',
    Python.accumulate t v = Ok t' /\
    Python.float_or_zero (total_assets t') /\
    Python.float_or_zero (total_investment t') /\
    Python.float_or_zero (total_profit t').
Proof.
  intros Ha Hi Hp Hm Hc Hpr. unfold Python.accumulate, Python.add.
  destruct (arith_float_or_zero Z.add PrimFloat.add _ _ eq_refl Ha Hm)
    as (ta & -> & Hta). simpl.
  destruct (arith_float_or_zero Z.add PrimFloat.add _ _ eq_refl Hi Hc)
    as (ti & -> & Hti). simpl.
  destruct (arith_float_or_zero Z.add PrimFloat.add _ _ eq_refl Hp Hpr)
    as (tp & -> & Htp). simpl.
  eexists. split; [reflexivity|]. done.
Qed.

Lemma display_row_presentable (a : gmap str (jvalue Python.number))
    (v : @valuation Python.number) (s p c : Python.number) :
  is_Some (a !! k_type) -> is_Some (a !! k_name) ->
  is_Some (a !! k_symbol) -> is_Some (a !! k_market) ->
  a !! k_shares = Some (JNum s) ->
  a !! k_current_price = Some (JNum p) -> Python.float_or_zero p ->
  a !! k_cost_price = Some (JNum c) -> Python.float_or_zero c ->
  Python.float_or_zero (return_rate v) ->
  Python.float_or_zero (market_value_cny v) ->
  Python.float_or_zero (profit_cny v) ->
  exists r, Python.display_row a v = Ok r.
Proof.
  intros [ty Hty] [n Hn] [y Hy] [m Hm] Hs Hp Hpz Hc Hcz Hr Hmv Hpr.
  unfold Python.display_row.
  rewrite (getitem_Some _ _ _ Hty), (getitem_Some _ _ _ Hn),
    (getitem_Some _ _ _ Hy), (getitem_Some _ _ _ Hm),
    (getitem_Some _ _ _ Hs), (getitem_Some _ _ _ Hc),
    (getitem_Some _ _ _ Hp).
  simpl.
  rewrite (format_f_Ok c Hcz), (format_f_Ok p Hpz), (format_f_Ok _ Hr),
    (format_f_Ok _ Hmv), (format_f_Ok _ Hpr).
  simpl. destruct (Python.eq0 (profit_cny v)); simpl; eauto.
Qed.

Lemma iteration_presentable (rate : Python.number)
    (a : gmap str (jvalue Python.number)) (t : @totals Python.number) :
  Python.convertible rate -> Python.presentable a ->
  Python.float_or_zero (total_assets t) ->
  Python.float_or_zero (total_investment t) ->
  Python.float_or_zero (total_profit t) ->
  exists t' r,
    Python.iteration rate (ensure_fields a) t = Ok (t', r) /\
    Python.float_or_zero (total_assets t') /\
    Python.float_or_zero (total_investment t') /\
    Python.float_or_zero (total_profit t').
Proof.
  intros Hrate ((s & Hs & Hsc) & (p & Hp & Hpz) & (c & Hc & Hcz)
                & Hn & Hy & Hm) Ha Hi Hpr.
  assert (Hcur : exists cur, ensure_fields a !! k_currency = Some cur).
  { unfold ensure_fields. rewrite lookup_setdefault. eauto. }
  destruct Hcur as [cur Hcur].
  assert (Hty : is_Some (ensure_fields a !! k_type)).
  { unfold ensure_fields. rewrite lookup_setdefault_ne by distinct.
    rewrite lookup_setdefault. eauto. }
  assert (Hkeep : forall k, is_Some (a !! k) -> is_Some (ensure_fields a !! k)).
  { intros k [x Hx]. exists x. by apply ensure_fields_keeps. }
  destruct (valuate_presentable rate s p c (ensure_fields a) cur Hrate)
    as (v & Hv & Hr & Hmv & Hcv & Hpc);
    try (by apply ensure_fields_keeps); try done.
  destruct (accumulate_float_or_zero t v Ha Hi Hpr Hmv Hcv Hpc)
    as (t' & Ht' & H1 & H2 & H3).
  destruct (display_row_presentable (ensure_fields a) v s p c)
    as (r & Hrow); try (by apply ensure_fields_keeps); auto.
  exists t', r. split; [|done].
  unfold Python.iteration. rewrite Hv. simpl. rewrite Ht'. simpl.
  by rewrite Hrow.
Qed.

Lemma display_loop_presentable (rate : Python.number)
    (l : list (gmap str (jvalue Python.number)))
    (rows : list (@row Python.number)) (t : @totals Python.number) :
  Python.convertible rate -> Forall Python.presentable l ->
  Python.float_or_zero (total_assets t) ->
  Python.float_or_zero (total_investment t) ->
  Python.float_or_zero (total_profit t) ->
  exists rows' t',
    Python.display_loop rate l rows t
    = (ensure_fields <$> l, Ok (rows ++ rows', t')) /\
    length rows' = length l /\
    Python.float_or_zero (total_assets t') /\
    Python.float_or_zero (total_investment t') /\
    Python.float_or_zero (total_profit t').
Proof.
  intros Hrate Hl. revert rows t.
  induction Hl as [|a rest Ha _ IH]; intros rows t H1 H2 H3.
  - exists [], t. rewrite app_nil_r. done.
  - destruct (iteration_presentable rate a t Hrate Ha H1 H2 H3)
      as (t1 & r & Hit & G1 & G2 & G3).
    destruct (IH (rows ++ [r]) t1 G1 G2 G3)
      as (rows' & t' & Hd & Hn & K1 & K2 & K3).
    exists (r :: rows'), t'. simpl. rewrite Hit, Hd.
    rewrite <- app_assoc. simpl. rewrite Hn. done.
Qed.

Lemma holding_presentable (market currency : str)
    (shares cost_price current_price : Python.number) :
  Python.convertible shares ->
  Python.float_or_zero cost_price -> Python.float_or_zero current_price ->
  Python.presentable
    (Python.holding market currency shares cost_price current_price).
Proof.
  intros Hs Hc Hp. unfold Python.presentable, Python.holding.
  split; [|split; [|split; [|split; [|split]]]].
  - exists shares. split; [|done].
    repeat (rewrite lookup_insert_ne by distinct). apply lookup_insert_eq.
  - exists current_price. split; [|done].
    repeat (rewrite lookup_insert_ne by distinct). apply lookup_insert_eq.
  - exists cost_price. split; [|done].
    repeat (rewrite lookup_insert_ne by distinct). apply lookup_insert_eq.
  - eexists. repeat (rewrite lookup_insert_ne by distinct).
    apply lookup_insert_eq.
  - eexists. apply lookup_insert_eq.
  - eexists. repeat (rewrite lookup_insert_ne by distinct).
    apply lookup_insert_eq.
Qed.

(** On Python's numbers too the loop writes nothing but the two
    defaults: a ledger whose entries all name type and currency is
    left as it was, whether or not the loop raises. *)
Lemma python_display_loop_complete (rate : Python.number)
    (l : list (gmap str (jvalue Python.number)))
    (rows : list (@row Python.number)) (t : @totals Python.number) :
  Forall complete l -> (Python.display_loop rate l rows t).1 = l.
Proof.
  intros Hl. revert rows t.
  induction Hl as [|b r Hb _ IH]; intros rows t; simpl; [done|].
  rewrite (ensure_fields_complete _ Hb).
  destruct (Python.iteration rate b t) as [[t' r0]|e]; simpl; [|done].
  specialize (IH (rows ++ [r0]) t').
  destruct (Python.display_loop rate r (rows ++ [r0]) t') as [r' out].
  simpl in *. by rewrite IH.
Qed.

Lemma total_return_float_or_zero (t : @totals Python.number) :
  Python.float_or_zero (total_investment t) ->
  Python.float_or_zero (total_profit t) ->
  exists r, Python.total_return t = Ok r.
Proof.
  intros Hi Hp. unfold Python.total_return.
  destruct (Python.gt0 (total_investment t)) eqn:E; [|eauto].
  destruct (total_investment t) as [z|y]; [simpl in Hi; subst; discriminate|].
  simpl in E. apply float_gt0_ne0 in E.
  destruct (float_or_zero_convertible _ Hp) as [x Hx].
  rewrite (truediv_float _ x y Hx E). simpl. eauto.
Qed.

(** X6: on a ledger whose entries have a share count that converts to
    a float, prices that are floats or the int 0, and a name, a symbol
    and a market, and at a rate that converts to a float, the display
    raises nothing: it shows one row per entry, leaves the ledger with
    the defaults written, and the total percentage is computed too. *)
Theorem render_succeeds (hkd_to_cny : Python.number)
    (l : list (gmap str (jvalue Python.number))) :
  Python.convertible hkd_to_cny ->
  Forall Python.presentable l ->
  exists rows t r,
    Python.render hkd_to_cny l = (ensure_fields <$> l, Ok (rows, t)) /\
    length rows = length l /\
    Python.total_return t = Ok r.
Proof.
  intros Hrate Hl. unfold Python.render.
  destruct (display_loop_presentable hkd_to_cny l [] Python.no_totals Hrate Hl)
    as (rows & t & Hd & Hn & H1 & H2 & H3); try reflexivity.
  destruct (total_return_float_or_zero t H2 H3) as [r Hr].
  by exists rows, t, r.
Qed.

End PythonFacts.

(** * Further properties of the lookups, the add form and the delete button *)

Section RegistryFacts.
Context {num : Type} `{PyNum num} `{PyRound num}.
Local Abbreviation asset := (gmap str (jvalue num)).
Implicit Types (env : @provider num) (w : @world num) (now : Z) (a : asset).

Lemma cache_data_frame {V} ttl now (slot : world -> option (cached V))
    store (body : io V) w :
  (forall w0, lookup_frame w0 (body w0).2) ->
  (forall c w0, portfolio (store c w0) = portfolio w0 /\
                DATA_FILE (store c w0) = DATA_FILE w0 /\
                requests (store c w0) = requests w0) ->
  lookup_frame w (cache_data ttl now slot store body w).2.
Proof.
  intros Hb Hs. unfold cache_data. specialize (Hb w).
  destruct (body w) as [v w'] eqn:E; simpl in *.
  assert (Hrun : lookup_frame w (store {| stored_at := now; stored := v |} w')).
  { destruct Hb as (Hp & Hd & Hr).
    destruct (Hs {| stored_at := now; stored := v |} w') as (Hp' & Hd' & Hr').
    split; [congruence|]. split; [congruence|]. by rewrite Hr'. }
  assert (Hid : lookup_frame w w) by (split; [done|]; split; [done|]; by left).
  destruct (slot w) as [c|]; [destruct (fresh ttl now c)|]; simpl; done.
Qed.

Lemma sent_frame r w : lookup_frame w (sent r w).
Proof. split; [done|]. split; [done|]. right. by exists r. Qed.

Lemma get_hkd_to_cny_rate_frame env now w :
  lookup_frame w (get_hkd_to_cny_rate env now w).2.
Proof.
  unfold get_hkd_to_cny_rate. apply cache_data_frame; [|done].
  intros w0. apply sent_frame.
Qed.

Lemma get_stock_info_frame env now symbol market w :
  lookup_frame w (get_stock_info env now symbol market w).2.
Proof.
  unfold get_stock_info. apply cache_data_frame; [|done].
  intros w0. unfold get_stock_info_body, stock_try.
  destruct (Text.eqb market A_SHARE); apply sent_frame.
Qed.

Lemma get_etf_info_frame env now symbol w :
  lookup_frame w (get_etf_info env now symbol w).2.
Proof.
  unfold get_etf_info. apply cache_data_frame; [|done].
  intros w0. apply sent_frame.
Qed.

Lemma add_lookup_frame env now f w : lookup_frame w (add_lookup env now f w).2.
Proof.
  unfold add_lookup. destruct (Text.eqb (asset_type f) ETF).
  - apply get_etf_info_frame.
  - apply get_stock_info_frame.
Qed.

Lemma main_add_valid env now (f : @add_form num) w :
  submitted f = true -> symbol f <> [] ->
  num_ltb zero (shares f) = true -> num_ltb zero (cost_price f) = true ->
  main_add env now f w
  = (Added,
     (append_and_save (new_asset f (add_lookup env now f w).1)
        (add_lookup env now f w).2).2).
Proof.
  intros Hsub Hsym Hsh Hc. unfold main_add.
  assert (Ht : Text.truthy (symbol f) = true) by (by destruct (symbol f)).
  rewrite Hsub, Ht, Hsh, Hc. simpl. unfold mbind, io_bind.
  fold (add_lookup env now f).
  by destruct (add_lookup env now f w) as [q w1].
Qed.

Lemma new_asset_fields (f : @add_form num) (q : @quote num) :
  new_asset f q !! k_symbol = Some (JStr (symbol f)) /\
  new_asset f q !! k_type = Some (JStr (asset_type f)) /\
  new_asset f q !! k_market = Some (JStr (market f)) /\
  new_asset f q !! k_shares = Some (JNum (shares f)) /\
  new_asset f q !! k_name = Some (q_name q) /\
  new_asset f q !! k_current_price = Some (q_current_price q) /\
  new_asset f q !! k_currency = Some (JStr (q_currency q)).
Proof.
  unfold new_asset.
  repeat split;
    repeat (rewrite lookup_insert_ne by distinct); apply lookup_insert_eq.
Qed.

(** X7: a submitted form with a symbol, positive shares and a positive
    cost price appends exactly one entry to the ledger of the session,
    after the existing ones.  The entry has the symbol, type, market
    and shares of the form and the name, price and currency of the
    quote that was looked up, and at most one upstream request was
    sent for it. *)
Theorem add_accepted env now (f : @add_form num) w :
  submitted f = true -> symbol f <> [] ->
  num_ltb zero (shares f) = true -> num_ltb zero (cost_price f) = true ->
  exists a q,
    q = (add_lookup env now f w).1 /\
    portfolio (main_add env now f w).2 = portfolio w ++ [a] /\
    a !! k_symbol = Some (JStr (symbol f)) /\
    a !! k_type = Some (JStr (asset_type f)) /\
    a !! k_market = Some (JStr (market f)) /\
    a !! k_shares = Some (JNum (shares f)) /\
    a !! k_name = Some (q_name q) /\
    a !! k_current_price = Some (q_current_price q) /\
    a !! k_currency = Some (JStr (q_currency q)) /\
    (requests (main_add env now f w).2 = requests w \/
     exists r, requests (main_add env now f w).2 = requests w ++ [r]).
Proof.
  intros Hsub Hsym Hsh Hc.
  rewrite (main_add_valid env now f w Hsub Hsym Hsh Hc).
  destruct (add_lookup_frame env now f w) as (Hp & Hd & Hr).
  exists (new_asset f (add_lookup env now f w).1), (add_lookup env now f w).1.
  split; [done|]. split; [simpl; by rewrite Hp|].
  destruct (new_asset_fields f (add_lookup env now f w).1)
    as (H1 & H2 & H3 & H4 & H5 & H6 & H7).
  repeat (split; [assumption|]). exact Hr.
Qed.

Lemma text_eqb_true (s t : str) : Text.eqb s t = true <-> s = t.
Proof. unfold Text.eqb. apply bool_decide_eq_true. Qed.

Lemma text_eqb_refl (s : str) : Text.eqb s s = true.
Proof. by apply text_eqb_true. Qed.

Lemma stock_body_world env symbol market w :
  exists r, (get_stock_info_body env symbol market w).2 = sent r w.
Proof.
  unfold get_stock_info_body, stock_try.
  destruct (Text.eqb market A_SHARE); eexists; reflexivity.
Qed.

Lemma stock_body_currency env symbol market w :
  market = A_SHARE \/ market = HK ->
  q_currency (get_stock_info_body env symbol market w).1
  = if Text.eqb market HK then HKD else CNY.
Proof.
  unfold get_stock_info_body, stock_try.
  intros [-> | ->].
  - change (Text.eqb A_SHARE A_SHARE) with true.
    change (Text.eqb A_SHARE HK) with false.
    unfold mbind, io_bind, mret, io_ret, call; simpl.
    destruct (stock_individual_info_em env _) as [info|e]; simpl; [|done].
    by destruct (default (Ok zero) (latest info)).
  - change (Text.eqb HK A_SHARE) with false.
    change (Text.eqb HK HK) with true.
    unfold mbind, io_bind, mret, io_ret, call; simpl.
    destruct (stock_hk_spot_em env) as [df|e]; simpl; [|done].
    by destruct (spot_lookup _ df).
Qed.

Lemma etf_body_currency env symbol w :
  q_currency (get_etf_info_body env symbol w).1 = CNY.
Proof.
  unfold get_etf_info_body, etf_try.
  unfold mbind, io_bind, mret, io_ret, call; simpl.
  destruct (fund_etf_spot_em env) as [df|e]; simpl; [|done].
  by destruct (spot_lookup _ df).
Qed.

Lemma get_stock_info_cases env now symbol market w :
  (exists c, stock_cache w !! (symbol, market) = Some c /\
             fresh 300 now c = true /\
             get_stock_info env now symbol market w = (stored c, w))
  \/ (exists r,
        no_fresh 300 now (stock_cache w !! (symbol, market)) /\
        get_stock_info env now symbol market w
        = ((get_stock_info_body env symbol market w).1,
           set_stock_cache
             (<[(symbol, market) :=
                  {| stored_at := now;
                     stored := (get_stock_info_body env symbol market w).1 |}]>
                (stock_cache w))
             (sent r w))).
Proof.
  destruct (stock_body_world env symbol market w) as [r Hr].
  destruct (stock_cache w !! (symbol, market)) as [c|] eqn:Hc.
  - destruct (fresh 300 now c) eqn:Hf.
    + left. exists c. split; [done|]. split; [done|].
      unfold get_stock_info. by apply cache_data_hit.
    + right. exists r. assert (Hm : no_fresh 300 now (Some c)).
      { intros c' [= <-]. done. }
      split; [done|]. unfold get_stock_info.
      rewrite cache_data_miss by (by rewrite Hc). by rewrite Hr.
  - right. exists r. assert (Hm : no_fresh 300 now (None : option (cached (@quote num)))).
    { intros c' [=]. }
    split; [done|]. unfold get_stock_info.
    rewrite cache_data_miss by (by rewrite Hc). by rewrite Hr.
Qed.

Lemma get_etf_info_cases env now symbol w :
  (exists c, etf_cache w !! symbol = Some c /\
             fresh 300 now c = true /\
             get_etf_info env now symbol w = (stored c, w))
  \/ (no_fresh 300 now (etf_cache w !! symbol) /\
      get_etf_info env now symbol w
      = ((get_etf_info_body env symbol w).1,
         set_etf_cache
           (<[symbol :=
                {| stored_at := now;
                   stored := (get_etf_info_body env symbol w).1 |}]>
              (etf_cache w))
           (sent EtfSpotRequest w))).
Proof.
  destruct (etf_cache w !! symbol) as [c|] eqn:Hc.
  - destruct (fresh 300 now c) eqn:Hf.
    + left. exists c. split; [done|]. split; [done|].
      unfold get_etf_info. by apply cache_data_hit.
    + right. assert (Hm : no_fresh 300 now (Some c)).
      { intros c' [= <-]. done. }
      split; [done|]. unfold get_etf_info.
      by rewrite cache_data_miss by (by rewrite Hc).
  - right. assert (Hm : no_fresh 300 now (None : option (cached (@quote num)))).
    { intros c' [=]. }
    split; [done|]. unfold get_etf_info.
    by rewrite cache_data_miss by (by rewrite Hc).
Qed.

Lemma get_stock_info_agree env now symbol market w :
  caches_agree w ->
  caches_agree (get_stock_info env now symbol market w).2 /\
  (market = A_SHARE \/ market = HK ->
   q_currency (get_stock_info env now symbol market w).1
   = if Text.eqb market HK then HKD else CNY).
Proof.
  intros [Hs He].
  destruct (get_stock_info_cases env now symbol market w)
    as [(c & Hc & _ & ->)|(r & _ & ->)]; cbn [fst snd].
  - split; [done|]. intros Hm. by eapply Hs.
  - split; [|apply stock_body_currency]. split; [|exact He].
    intros symbol' market' c' Hc' Hm'. cbn [stock_cache set_stock_cache] in Hc'.
    destruct (decide ((symbol, market) = (symbol', market'))) as [[= <- <-]|Hne].
    + rewrite lookup_insert_eq in Hc'. injection Hc' as <-. cbn [stored].
      by apply stock_body_currency.
    + rewrite lookup_insert_ne in Hc' by done. by eapply Hs.
Qed.

Lemma get_etf_info_agree env now symbol w :
  caches_agree w ->
  caches_agree (get_etf_info env now symbol w).2 /\
  q_currency (get_etf_info env now symbol w).1 = CNY.
Proof.
  intros [Hs He].
  destruct (get_etf_info_cases env now symbol w)
    as [(c & Hc & _ & ->)|(_ & ->)]; cbn [fst snd].
  - split; [done|]. by eapply He.
  - split; [|apply etf_body_currency]. split; [exact Hs|].
    intros symbol' c' Hc'. cbn [etf_cache set_etf_cache] in Hc'.
    destruct (decide (symbol = symbol')) as [<-|Hne].
    + rewrite lookup_insert_eq in Hc'. injection Hc' as <-.
      exact (etf_body_currency env symbol w).
    + rewrite lookup_insert_ne in Hc' by done. by eapply He.
Qed.


Lemma new_asset_agrees (f : @add_form num) q :
  q_currency q = (if Text.eqb (market f) HK then HKD else CNY) ->
  currency_agrees (new_asset f q) = true.
Proof.
  intros Hq. unfold currency_agrees, new_asset.
  rewrite (lookup_insert_ne _ k_symbol k_market) by distinct.
  rewrite (lookup_insert_ne _ k_type k_market) by distinct.
  rewrite lookup_insert_eq.
  do 7 (rewrite lookup_insert_ne by distinct). rewrite lookup_insert_eq.
  simpl. rewrite Hq. by destruct (Text.eqb (market f) HK).
Qed.

(** X8: when every memoised quote carries the currency of its market,
    as all quotes stored by the lookups do, the entry that an accepted
    form appends has the currency of its market: HKD for a 港股 stock,
    CNY for an A股 stock and for a fund.  The memoised quotes keep that
    property. *)
Theorem add_currency_agrees env now (f : @add_form num) w :
  caches_agree w ->
  (asset_type f = STOCK -> market_choice f = A_SHARE \/ market_choice f = HK) ->
  submitted f = true -> symbol f <> [] ->
  num_ltb zero (shares f) = true -> num_ltb zero (cost_price f) = true ->
  caches_agree (main_add env now f w).2 /\
  exists a, last (portfolio (main_add env now f w).2) = Some a /\
            currency_agrees a = true.
Proof.
  intros Hw Hmk Hsub Hsym Hsh Hc.
  rewrite (main_add_valid env now f w Hsub Hsym Hsh Hc). simpl.
  assert (Hmarket : market f = A_SHARE \/ market f = HK).
  { unfold market. destruct (Text.eqb (asset_type f) STOCK) eqn:E; [|by left].
    apply text_eqb_true in E. by apply Hmk. }
  assert (Hl : caches_agree (add_lookup env now f w).2 /\
               q_currency (add_lookup env now f w).1
               = if Text.eqb (market f) HK then HKD else CNY).
  { unfold add_lookup. destruct (Text.eqb (asset_type f) ETF) eqn:E.
    - destruct (get_etf_info_agree env now (symbol f) w Hw) as [H1 H2].
      split; [done|]. rewrite H2.
      apply text_eqb_true in E. unfold market. rewrite E.
      change (Text.eqb ETF STOCK) with false.
      by change (Text.eqb A_SHARE HK) with false.
    - destruct (get_stock_info_agree env now (symbol f) (market f) w Hw)
        as [H1 H2].
      split; [done|]. by apply H2. }
  destruct Hl as [Hl1 Hl2]. split; [exact Hl1|].
  eexists. rewrite last_snoc. split; [done|]. by apply new_asset_agrees.
Qed.

(** X9: deleting at a position of the ledger removes that entry and no
    other: the entries before it stay where they are, the ones after it
    move up by one, and the data file then holds the ledger of the
    session.  At a position past the end nothing is deleted and nothing
    is written. *)
Theorem delete_entry (i : nat) w :
  ((i < length (portfolio w))%nat ->
   (main_delete i w).1 = Deleted /\
   S (length (portfolio (main_delete i w).2)) = length (portfolio w) /\
   (forall j, (j < i)%nat ->
      portfolio (main_delete i w).2 !! j = portfolio w !! j) /\
   (forall j, (i <= j)%nat ->
      portfolio (main_delete i w).2 !! j = portfolio w !! S j) /\
   DATA_FILE (main_delete i w).2 = Some (portfolio (main_delete i w).2))
  /\ ((length (portfolio w) <= i)%nat -> main_delete i w = (IndexError, w)).
Proof.
  unfold main_delete. split.
  - intros Hi. apply Nat.ltb_lt in Hi as Hb. rewrite Hb. simpl.
    split; [done|]. split; [|split; [|split]]; [| | |done].
    + rewrite length_delete by (by apply lookup_lt_is_Some). lia.
    + intros j Hj. by apply list_lookup_delete_lt.
    + intros j Hj. by apply list_lookup_delete_ge.
  - intros Hi. apply Nat.ltb_ge in Hi. by rewrite Hi.
Qed.

(** X10: deleting the entry that an accepted form has just appended
    gives back the ledger as it was before the form, in the session
    and, whatever the file held before, in the data file. *)
Theorem add_then_delete env now (f : @add_form num) w :
  submitted f = true -> symbol f <> [] ->
  num_ltb zero (shares f) = true -> num_ltb zero (cost_price f) = true ->
  portfolio (main_delete (length (portfolio w)) (main_add env now f w).2).2
    = portfolio w
  /\ DATA_FILE (main_delete (length (portfolio w)) (main_add env now f w).2).2
     = Some (portfolio w).
Proof.
  intros Hsub Hsym Hsh Hc.
  rewrite (main_add_valid env now f w Hsub Hsym Hsh Hc).
  destruct (add_lookup_frame env now f w) as (Hp & _ & _).
  unfold main_delete. simpl. rewrite Hp.
  assert (Hlt : (length (portfolio w)
                 <? length (portfolio w ++ [new_asset f (add_lookup env now f w).1]))%nat
                = true).
  { apply Nat.ltb_lt. rewrite length_app. simpl. lia. }
  rewrite Hlt. simpl.
  assert (Hdel : delete (length (portfolio w))
                   (portfolio w ++ [new_asset f (add_lookup env now f w).1])
                 = portfolio w).
  { rewrite delete_middle. by rewrite app_nil_r. }
  by rewrite Hdel.
Qed.

End RegistryFacts.

(** * Properties of the refresh button *)

Section RefreshFacts.
Context {num : Type} `{PyNum num} `{PyRound num}.
Local Abbreviation asset := (gmap str (jvalue num)).
Implicit Types (env : @provider num) (w : @world num) (now : Z) (a : asset).

Lemma repriced_refl a : repriced a a.
Proof. by split. Qed.

Lemma repriced_insert a a' k v :
  repriced a a' -> k = k_current_price \/ k = k_name -> is_Some (a' !! k) ->
  repriced a (<[k := v]> a').
Proof.
  intros [Hsame Hdom] Hk Hin. split.
  - intros k' H1 H2. rewrite lookup_insert_ne; [by apply Hsame|].
    destruct Hk; congruence.
  - intros k'. destruct (decide (k = k')) as [<-|Hne].
    + rewrite lookup_insert_eq. split; [|by eauto].
      intros _. by apply Hdom.
    + rewrite lookup_insert_ne by done. apply Hdom.
Qed.

Lemma getitem_is_Some {V} (k : str) (d : gmap str V) v :
  getitem k d = Ok v -> is_Some (d !! k).
Proof. unfold getitem. destruct (d !! k); [eauto|discriminate]. Qed.

Lemma refresh_write_spec (q : @quote num) a (u : bool) :
  repriced a (refresh_write q a u).1.1 /\
  (u = true -> (refresh_write q a u).1.2 = true) /\
  ((refresh_write q a u).1.2 = false -> (refresh_write q a u).1.1 = a).
Proof.
  unfold refresh_write.
  destruct (ty ← getitem k_type a;
            if is_text ty ETF then py_round (q_current_price q)
            else Ok (q_current_price q)) as [new_price|e]; simpl;
    [|by split; [apply repriced_refl|]].
  destruct (getitem k_current_price a) as [cur|e] eqn:Hcur; simpl;
    [|by split; [apply repriced_refl|]].
  apply getitem_is_Some in Hcur.
  destruct (py_ne cur new_price); simpl.
  - assert (Hr : repriced a (<[k_current_price := new_price]> a)).
    { apply repriced_insert; [apply repriced_refl|by left|done]. }
    destruct (getitem k_name (<[k_current_price := new_price]> a))
      as [name|e] eqn:Hname; simpl; [|done].
    apply getitem_is_Some in Hname.
    destruct (py_ne (q_name q) name); simpl; [|done].
    split; [|done]. apply repriced_insert; [done|by right|done].
  - destruct (getitem k_name a) as [name|e] eqn:Hname; simpl;
      [|by split; [apply repriced_refl|]].
    apply getitem_is_Some in Hname.
    destruct (py_ne (q_name q) name); simpl;
      [|by split; [apply repriced_refl|]].
    split; [|done]. apply repriced_insert; [apply repriced_refl|by right|done].
Qed.

Lemma refresh_except_spec a a' (u u' : bool) :
  repriced a a' -> (u = true -> u' = true) -> (u' = false -> a' = a) ->
  entry_refreshed a u (refresh_except a' u').
Proof.
  intros Hr Hu Hu'. unfold refresh_except.
  destruct (a' !! k_symbol) as [v|] eqn:Hs; simpl; [done|].
  destruct Hr as [_ Hdom]. destruct (a !! k_symbol) as [v|] eqn:Ha; [|done].
  assert (Hin : is_Some (a' !! k_symbol)) by (apply Hdom; eauto).
  rewrite Hs in Hin. by destruct Hin.
Qed.

Lemma refresh_lookup_world env now a w :
  (refresh_lookup env now a w).2 = w
  \/ (exists symbol market,
        (refresh_lookup env now a w).2
        = (get_stock_info env now symbol market w).2)
  \/ (exists symbol,
        (refresh_lookup env now a w).2 = (get_etf_info env now symbol w).2).
Proof.
  unfold refresh_lookup.
  destruct (getitem k_type a) as [ty|e]; [|by left].
  destruct (arg_text k_symbol a) as [[symbol|e]|]; [|by left..].
  destruct (is_text ty STOCK).
  - destruct (arg_text k_market a) as [[market|e]|]; [|by left..].
    right. left. exists symbol, market.
    by destruct (get_stock_info env now symbol market w).
  - right. right. exists symbol.
    by destruct (get_etf_info env now symbol w).
Qed.

Lemma refresh_entry_world env now a u w :
  (refresh_entry env now a u w).2 = (refresh_lookup env now a w).2.
Proof.
  unfold refresh_entry.
  destruct (refresh_lookup env now a w) as [[[q|e]|e|] w']; try done.
  by destruct (refresh_write q a u) as [[a' u'] [[]|e]].
Qed.

Lemma refresh_entry_frame env now a u w :
  lookup_frame w (refresh_entry env now a u w).2 /\
  (caches_agree w -> caches_agree (refresh_entry env now a u w).2).
Proof.
  rewrite refresh_entry_world.
  destruct (refresh_lookup_world env now a w)
    as [->|[(s & m & ->)|(s & ->)]].
  - split; [|done]. split; [done|]. split; [done|]. by left.
  - split; [apply get_stock_info_frame|].
    intros Hw. by apply get_stock_info_agree.
  - split; [apply get_etf_info_frame|].
    intros Hw. by apply get_etf_info_agree.
Qed.

Lemma refresh_entry_spec env now a u w :
  entry_refreshed a u (refresh_entry env now a u w).1.
Proof.
  unfold refresh_entry.
  destruct (refresh_lookup env now a w) as [[[q|e]|e|] w'] eqn:Hl; simpl.
  - pose proof (refresh_write_spec q a u) as (Hr & Hu & Hu').
    destruct (refresh_write q a u) as [[a' u'] [[]|e]]; simpl in *; [done|].
    by apply refresh_except_spec.
  - apply refresh_except_spec; [apply repriced_refl|done..].
  - unfold refresh_lookup in Hl.
    destruct (getitem k_type a) as [ty|e']; [|by inversion Hl].
    destruct (arg_text k_symbol a) as [[symbol|e']|]; [|by inversion Hl..].
    destruct (is_text ty STOCK).
    + destruct (arg_text k_market a) as [[market|e']|]; [|by inversion Hl..].
      destruct (get_stock_info env now symbol market w). by inversion Hl.
    + destruct (get_etf_info env now symbol w). by inversion Hl.
  - done.
Qed.

Lemma refresh_loop_cons env now a rest u w :
  refresh_loop env now (a :: rest) u w =
    match refresh_entry env now a u w with
    | (Done (a', u'), w') =>
        ((a' :: (refresh_loop env now rest u' w').1.1,
          (refresh_loop env now rest u' w').1.2),
         (refresh_loop env now rest u' w').2)
    | (Abort e, w') => ((a :: rest, Abort e), w')
    | (Unmodelled, w') => ((a :: rest, Unmodelled), w')
    end.
Proof.
  simpl. destruct (refresh_entry env now a u w) as [[[a' u']|e|] w']; try done.
  by destruct (refresh_loop env now rest u' w') as [[rest' out] w''].
Qed.

Lemma lookup_frame_trans w1 w2 w3 :
  portfolio w2 = portfolio w1 /\ DATA_FILE w2 = DATA_FILE w1 ->
  portfolio w3 = portfolio w2 /\ DATA_FILE w3 = DATA_FILE w2 ->
  portfolio w3 = portfolio w1 /\ DATA_FILE w3 = DATA_FILE w1.
Proof. intros [? ?] [? ?]. split; congruence. Qed.

Lemma refresh_loop_spec env now (l : list asset) u w :
  Forall2 repriced l (refresh_loop env now l u w).1.1 /\
  (portfolio (refresh_loop env now l u w).2 = portfolio w /\
   DATA_FILE (refresh_loop env now l u w).2 = DATA_FILE w) /\
  (caches_agree w -> caches_agree (refresh_loop env now l u w).2) /\
  match (refresh_loop env now l u w).1.2 with
  | Done u' =>
      (u = true -> u' = true) /\
      (u' = false -> (refresh_loop env now l u w).1.1 = l)
  | Abort e => e = KeyError k_symbol /\ exists a, a ∈ l /\ a !! k_symbol = None
  | Unmodelled => True
  end.
Proof.
  revert u w. induction l as [|a rest IH]; intros u w.
  - simpl. split; [constructor|]. done.
  - rewrite refresh_loop_cons.
    pose proof (refresh_entry_spec env now a u w) as Hspec.
    destruct (refresh_entry_frame env now a u w) as [(Hp & Hd & _) Hag].
    destruct (refresh_entry env now a u w) as [[[a' u']|e|] w'];
      cbn [fst snd] in *.
    + destruct Hspec as (Hr & Hu & Hu').
      destruct (IH u' w') as (Hall & Hfr & Hag' & Hout).
      split; [by constructor|].
      split; [by apply (lookup_frame_trans w w')|].
      split; [by auto|].
      destruct ((refresh_loop env now rest u' w').1.2) as [uf|e|]; [| |done].
      * destruct Hout as [Hmono Hsame]. split; [by auto|].
        intros Huf. specialize (Hsame Huf).
        destruct u' eqn:Eu; [by specialize (Hmono eq_refl); congruence|].
        rewrite Hsame. by rewrite (Hu' eq_refl).
      * destruct Hout as (He & b & Hb & Hsym). split; [done|].
        exists b. split; [|done]. by apply elem_of_cons; right.
    + split; [apply Forall2_same_length_lookup_2; [done|]|].
      { intros i x y Hx Hy. rewrite Hx in Hy. injection Hy as <-.
        apply repriced_refl. }
      destruct Hspec as [He Hsym].
      split; [done|]. split; [done|]. split; [done|]. exists a.
      split; [|done]. by apply elem_of_cons; left.
    + split; [apply Forall2_same_length_lookup_2; [done|]|].
      { intros i x y Hx Hy. rewrite Hx in Hy. injection Hy as <-.
        apply repriced_refl. }
      done.
Qed.


Lemma complete_repriced a a' : complete a -> repriced a a' -> complete a'.
Proof. intros [Ht Hc] [_ Hdom]. split; by apply Hdom. Qed.

Lemma refresh_entry_named env now a u w :
  named a -> exists a' u', (refresh_entry env now a u w).1 = Done (a', u').
Proof.
  intros [[s Hs] [m Hm]]. unfold refresh_entry, refresh_lookup.
  assert (Hex : forall b v, repriced a b ->
            exists a' u', refresh_except b v = Done (a', u')).
  { intros b v [_ Hdom]. unfold refresh_except.
    assert (Hin : is_Some (b !! k_symbol)) by (apply Hdom; eauto).
    destruct Hin as [x ->]. eauto. }
  destruct (getitem k_type a) as [ty|e]; [|by apply Hex, repriced_refl].
  unfold arg_text. rewrite Hs, Hm.
  assert (Hw : forall q, exists a' u',
            (let '(a0, u0, r) := refresh_write q a u in
             match r with
             | Ok _ => Done (a0, u0)
             | Raise _ => refresh_except a0 u0
             end) = Done (a', u')).
  { intros q. pose proof (refresh_write_spec q a u) as (Hr & _).
    destruct (refresh_write q a u) as [[a0 u0] [[]|e]]; simpl in *; [eauto|].
    by apply Hex. }
  destruct (is_text ty STOCK).
  - destruct (get_stock_info env now s m w) as [q w']. simpl.
    destruct (Hw q) as (a' & u' & Hq). exists a', u'.
    by destruct (refresh_write q a u) as [[a0 u0] [[]|e]].
  - destruct (get_etf_info env now s w) as [q w']. simpl.
    destruct (Hw q) as (a' & u' & Hq). exists a', u'.
    by destruct (refresh_write q a u) as [[a0 u0] [[]|e]].
Qed.


Lemma main_refresh_unfold env now w :
  main_refresh env now w =
    let w1 := (get_hkd_to_cny_rate env now w).2 in
    let r := refresh_loop env now (portfolio w1) false w1 in
    let w3 := (set_portfolio r.1.1 r.2).2 in
    match r.1.2 with
    | Done true => (Done true, (set_DATA_FILE (save_portfolio r.1.1) w3).2)
    | out => (out, w3)
    end.
Proof.
  unfold main_refresh.
  destruct (get_hkd_to_cny_rate env now w) as [rate w1]. cbn [snd].
  destruct (refresh_loop env now (portfolio w1) false w1) as [[l out] w2].
  cbn [fst snd]. by destruct out as [[]| |].
Qed.

Lemma main_refresh_spec env now w :
  Forall2 repriced (portfolio w) (portfolio (main_refresh env now w).2) /\
  match (main_refresh env now w).1 with
  | Done true =>
      DATA_FILE (main_refresh env now w).2
      = Some (portfolio (main_refresh env now w).2)
  | Done false =>
      portfolio (main_refresh env now w).2 = portfolio w /\
      DATA_FILE (main_refresh env now w).2 = DATA_FILE w
  | Abort e =>
      e = KeyError k_symbol /\
      DATA_FILE (main_refresh env now w).2 = DATA_FILE w /\
      exists a, a ∈ portfolio w /\ a !! k_symbol = None
  | Unmodelled => True
  end.
Proof.
  rewrite main_refresh_unfold.
  destruct (get_hkd_to_cny_rate_frame env now w) as (Hp & Hd & _).
  set (w1 := (get_hkd_to_cny_rate env now w).2) in *. cbn zeta.
  destruct (refresh_loop_spec env now (portfolio w1) false w1)
    as (Hall & [Hp2 Hd2] & _ & Hout).
  destruct (refresh_loop env now (portfolio w1) false w1) as [[l out] w2].
  cbn [fst snd] in *. rewrite Hp in Hall, Hout.
  destruct out as [[]|e|]; cbn [fst snd portfolio DATA_FILE set_portfolio
    set_DATA_FILE save_portfolio]; split; try done.
  - destruct Hout as [_ Hsame]. split; [by apply Hsame|congruence].
  - destruct Hout as [He Hex]. split; [done|]. split; [congruence|done].
Qed.

(** X11: a refresh keeps the ledger's entries in place and changes
    nothing about them but the current price and the name: no entry is
    added, removed or moved, every other field keeps its value, and no
    field appears or disappears. *)
Theorem refresh_frame env now w :
  (main_refresh env now w).1 <> Unmodelled ->
  Forall2 repriced (portfolio w) (portfolio (main_refresh env now w).2).
Proof. intros _. apply main_refresh_spec. Qed.

(** X12: a refresh whose loop ends with the flag [updated] unset has
    written nothing: the ledger of the session and the data file are
    the ones before.  When the loop leaves main with an exception, the
    exception is KeyError('symbol'), raised by the except branch for an
    entry without a symbol, and the data file has not been written,
    whatever the loop changed in the ledger before that entry. *)
Theorem refresh_without_save env now w :
  ((main_refresh env now w).1 = Done false ->
     portfolio (main_refresh env now w).2 = portfolio w /\
     DATA_FILE (main_refresh env now w).2 = DATA_FILE w)
  /\ (forall e, (main_refresh env now w).1 = Abort e ->
       e = KeyError k_symbol /\
       DATA_FILE (main_refresh env now w).2 = DATA_FILE w /\
       exists a, a ∈ portfolio w /\ a !! k_symbol = None).
Proof.
  destruct (main_refresh_spec env now w) as [_ Hout].
  split.
  - intros E. by rewrite E in Hout.
  - intros e E. rewrite E in Hout. done.
Qed.

Lemma get_hkd_to_cny_rate_stock_cache env now w :
  stock_cache (get_hkd_to_cny_rate env now w).2 = stock_cache w.
Proof.
  unfold get_hkd_to_cny_rate, cache_data.
  unfold get_hkd_to_cny_rate_body, mbind, io_bind, mret, io_ret, call; simpl.
  destruct (rate_cache w) as [c|]; [destruct (fresh 3600 now c)|]; done.
Qed.

Lemma refresh_write_placeholder a (u : bool) (s cur : str) p (n : jvalue num) :
  a !! k_type = Some (JStr STOCK) ->
  a !! k_current_price = Some (JNum p) -> num_eqb p zero = false ->
  a !! k_name = Some n ->
  exists a',
    refresh_write {| q_name := JStr s; q_current_price := JNum zero;
                     q_currency := cur |} a u = (a', true, Ok tt) /\
    a' !! k_current_price = Some (JNum zero) /\
    a' !! k_name = Some (JStr s).
Proof.
  intros Hty Hp Hne Hn. unfold refresh_write.
  rewrite (getitem_Some _ _ _ Hty). simpl.
  change (Text.eqb STOCK ETF) with false. simpl.
  rewrite (getitem_Some _ _ _ Hp). simpl. rewrite Hne. simpl.
  assert (Hn' : <[k_current_price := JNum zero]> a !! k_name = Some n).
  { rewrite lookup_insert_ne by distinct. done. }
  rewrite (getitem_Some _ _ _ Hn'). unfold py_ne.
  assert (Hset : exists a',
            (<[k_name := JStr s]> (<[k_current_price := JNum zero]> a),
             true, Ok tt) = (a', true, @Ok unit tt) /\
            a' !! k_current_price = Some (JNum zero) /\
            a' !! k_name = Some (JStr s)).
  { eexists. split; [reflexivity|]. split; [|apply lookup_insert_eq].
    rewrite lookup_insert_ne by distinct. apply lookup_insert_eq. }
  destruct n as [|x|t]; try exact Hset.
  destruct (Text.eqb s t) eqn:E; simpl; [|exact Hset].
  apply text_eqb_true in E. subst t.
  eexists. split; [reflexivity|]. split; [apply lookup_insert_eq|done].
Qed.

Lemma get_stock_info_placeholder env now (s m : str) w :
  stock_call_fails env s m ->
  stale_or_placeholder now s m w ->
  (get_stock_info env now s m w).1 = stock_placeholder s m.
Proof.
  intros Hfail Hinv.
  destruct (get_stock_info_cases env now s m w)
    as [(c & Hc & Hfr & ->)|(r & _ & ->)]; cbn [fst].
  - by apply Hinv.
  - by apply stock_body_fails.
Qed.

Lemma get_stock_info_keeps_placeholder env now (s m s' m' : str) w :
  stock_call_fails env s m ->
  stale_or_placeholder now s m w ->
  stale_or_placeholder now s m (get_stock_info env now s' m' w).2.
Proof.
  intros Hfail Hinv.
  destruct (get_stock_info_cases env now s' m' w)
    as [(c & Hc & Hfr & ->)|(r & _ & ->)]; cbn [snd]; [done|].
  intros c Hc Hfr. cbn [stock_cache set_stock_cache] in Hc.
  destruct (decide ((s', m') = (s, m))) as [[= -> ->]|Hne].
  - rewrite lookup_insert_eq in Hc. injection Hc as <-. cbn [stored].
    by apply stock_body_fails.
  - rewrite lookup_insert_ne in Hc by done. by apply Hinv.
Qed.

Lemma get_etf_info_stock_cache env now (s : str) w :
  stock_cache (get_etf_info env now s w).2 = stock_cache w.
Proof.
  destruct (get_etf_info_cases env now s w) as [(c & _ & _ & ->)|(_ & ->)];
    reflexivity.
Qed.

Lemma refresh_entry_keeps_placeholder env now a (u : bool) w (s m : str) :
  stock_call_fails env s m ->
  stale_or_placeholder now s m w ->
  stale_or_placeholder now s m (refresh_entry env now a u w).2.
Proof.
  intros Hfail Hinv. rewrite refresh_entry_world.
  destruct (refresh_lookup_world env now a w)
    as [->|[(s' & m' & ->)|(s' & ->)]]; [done| |].
  - by apply get_stock_info_keeps_placeholder.
  - unfold stale_or_placeholder. by rewrite get_etf_info_stock_cache.
Qed.

Lemma refresh_entry_outage env now a (u : bool) w (s m : str) p :
  a !! k_type = Some (JStr STOCK) ->
  a !! k_symbol = Some (JStr s) -> a !! k_market = Some (JStr m) ->
  a !! k_current_price = Some (JNum p) -> num_eqb p zero = false ->
  is_Some (a !! k_name) ->
  stock_call_fails env s m ->
  stale_or_placeholder now s m w ->
  exists a',
    (refresh_entry env now a u w).1 = Done (a', true) /\
    a' !! k_current_price = Some (JNum zero) /\
    a' !! k_name = Some (JStr (Text.strip s)).
Proof.
  intros Hty Hs Hm Hp Hne [n Hn] Hfail Hinv.
  unfold refresh_entry, refresh_lookup, arg_text.
  rewrite (getitem_Some _ _ _ Hty), Hs, Hm.
  change (is_text (JStr STOCK) STOCK) with true. cbn iota.
  pose proof (get_stock_info_placeholder env now s m w Hfail Hinv) as Hq.
  destruct (get_stock_info env now s m w) as [q w']. simpl in Hq. subst q.
  destruct (refresh_write_placeholder a u (Text.strip s)
              (if Text.eqb m HK then HKD else CNY) p n Hty Hp Hne Hn)
    as (a' & Hw & H1 & H2).
  unfold stock_placeholder. rewrite Hw. exists a'. done.
Qed.

Lemma refresh_loop_outage env now (l1 rest : list asset) a (u : bool) w
    (s m : str) p :
  Forall named l1 ->
  a !! k_type = Some (JStr STOCK) ->
  a !! k_symbol = Some (JStr s) -> a !! k_market = Some (JStr m) ->
  a !! k_current_price = Some (JNum p) -> num_eqb p zero = false ->
  is_Some (a !! k_name) ->
  stock_call_fails env s m ->
  stale_or_placeholder now s m w ->
  exists a',
    (refresh_loop env now (l1 ++ a :: rest) u w).1.1 !! length l1 = Some a' /\
    a' !! k_current_price = Some (JNum zero) /\
    a' !! k_name = Some (JStr (Text.strip s)) /\
    forall uf, (refresh_loop env now (l1 ++ a :: rest) u w).1.2 = Done uf ->
      uf = true.
Proof.
  intros Hl1 Hty Hs Hm Hp Hne Hn Hfail. revert u w.
  induction Hl1 as [|b r Hb _ IH]; intros u w Hinv.
  - simpl app. rewrite refresh_loop_cons.
    destruct (refresh_entry_outage env now a u w s m p
                Hty Hs Hm Hp Hne Hn Hfail Hinv) as (a' & Hd & H1 & H2).
    destruct (refresh_entry env now a u w) as [out w'].
    simpl in Hd. subst out.
    destruct (refresh_loop_spec env now rest true w') as (_ & _ & _ & Hmono).
    cbn [fst snd]. exists a'. split; [done|]. split; [done|]. split; [done|].
    intros uf Huf. rewrite Huf in Hmono. destruct Hmono as [Hmono _]. auto.
  - change ((b :: r) ++ a :: rest) with (b :: (r ++ a :: rest)).
    rewrite refresh_loop_cons.
    destruct (refresh_entry_named env now b u w Hb) as (b' & u' & Hd).
    pose proof (refresh_entry_keeps_placeholder env now b u w s m Hfail Hinv)
      as Hinv'.
    destruct (refresh_entry env now b u w) as [out w'].
    simpl in Hd. subst out. cbn [fst snd] in *.
    destruct (IH u' w' Hinv') as (a' & Hi & H1 & H2 & Hu).
    exists a'. done.
Qed.

Lemma refresh_loop_requests env now (l : list asset) u w :
  (length (requests (refresh_loop env now l u w).2)
   <= length (requests w) + length l)%nat.
Proof.
  revert u w. induction l as [|a rest IH]; intros u w; [simpl; lia|].
  rewrite refresh_loop_cons.
  destruct (refresh_entry_frame env now a u w) as [(_ & _ & Hr) _].
  assert (Hle : (length (requests (refresh_entry env now a u w).2)
                 <= length (requests w) + 1)%nat).
  { destruct Hr as [->|[r ->]]; [lia|]. rewrite length_app. simpl. lia. }
  destruct (refresh_entry env now a u w) as [[[a' u']|e|] w'];
    cbn [fst snd length] in *; try lia.
  specialize (IH u' w'). lia.
Qed.

(** X16: a refresh sends at most one upstream request for the rate
    and one per entry of the ledger. *)
Theorem refresh_requests_bound env now w :
  (length (requests (main_refresh env now w).2)
   <= length (requests w) + 1 + length (portfolio w))%nat.
Proof.
  rewrite main_refresh_unfold.
  destruct (get_hkd_to_cny_rate_frame env now w) as (Hp & _ & Hr).
  assert (Hle : (length (requests (get_hkd_to_cny_rate env now w).2)
                 <= length (requests w) + 1)%nat).
  { destruct Hr as [->|[r ->]]; [lia|]. rewrite length_app. simpl. lia. }
  set (w1 := (get_hkd_to_cny_rate env now w).2) in *. cbn zeta.
  pose proof (refresh_loop_requests env now (portfolio w1) false w1) as Hl.
  rewrite Hp in Hl at 2.
  destruct (refresh_loop env now (portfolio w1) false w1) as [[l out] w2].
  cbn [fst snd] in *.
  destruct out as [[]|e|]; cbn [snd requests set_portfolio set_DATA_FILE]; lia.
Qed.

(** X13: when the upstream call for a stock of the ledger fails
    during a refresh and no quote young enough is memoised for it, the
    refresh replaces the stored price of that stock by 0 and its name
    by the stripped symbol, wherever in the ledger the stock stands
    (the entries before it name their symbol and market in text).  If
    the refresh loop then runs to its end, its flag [updated] is set. *)
Theorem refresh_outage env now w (l1 rest : list asset) a (s m : str) p :
  portfolio w = l1 ++ a :: rest ->
  Forall named l1 ->
  a !! k_type = Some (JStr STOCK) ->
  a !! k_symbol = Some (JStr s) -> a !! k_market = Some (JStr m) ->
  a !! k_current_price = Some (JNum p) -> num_eqb p zero = false ->
  is_Some (a !! k_name) ->
  stock_call_fails env s m ->
  no_fresh 300 now (stock_cache w !! (s, m)) ->
  exists a',
    portfolio (main_refresh env now w).2 !! length l1 = Some a' /\
    a' !! k_current_price = Some (JNum zero) /\
    a' !! k_name = Some (JStr (Text.strip s)) /\
    forall u, (main_refresh env now w).1 = Done u -> u = true.
Proof.
  intros Hw Hl1 Hty Hs Hm Hp Hne Hn Hfail Hmiss.
  rewrite main_refresh_unfold.
  destruct (get_hkd_to_cny_rate_frame env now w) as (Hp1 & _ & _).
  pose proof (get_hkd_to_cny_rate_stock_cache env now w) as Hsc.
  set (w1 := (get_hkd_to_cny_rate env now w).2) in *. cbn zeta.
  assert (Hinv : stale_or_placeholder now s m w1).
  { intros c Hc Hfr. rewrite Hsc in Hc. rewrite (Hmiss c Hc) in Hfr.
    discriminate. }
  rewrite Hp1, Hw.
  destruct (refresh_loop_outage env now l1 rest a false w1 s m p
              Hl1 Hty Hs Hm Hp Hne Hn Hfail Hinv) as (a' & Hi & H1 & H2 & Hu).
  destruct (refresh_loop env now (l1 ++ a :: rest) false w1)
    as [[l out] w2].
  cbn [fst snd] in *. exists a'.
  destruct out as [[]|e|]; cbn [fst snd portfolio set_portfolio set_DATA_FILE];
    (split; [done|]; split; [done|]; split; [done|]);
    intros u [= <-]; try done.
  by apply Hu.
Qed.

End RefreshFacts.

(** * What holds throughout a session *)

Section Session.
Context {num : Type} `{PyNum num} `{PyRound num}.
Local Abbreviation asset := (gmap str (jvalue num)).
Implicit Types (env : @provider num) (w : @world num) (now : Z) (a : asset).


Lemma session_start_portfolio (f : @file num) w :
  session_start f = Ok w -> load_portfolio f = Ok (portfolio w).
Proof.
  unfold session_start. destruct (load_portfolio f) as [l|e]; [|discriminate].
  by intros [= <-].
Qed.









(** Every entry of every ledger a session holds names its type and its
    currency, whatever the data file held: Load fills them in, the add
    form writes them, and deleting and refreshing do not remove them. *)
Lemma reachable_complete (f : @file num) w :
  reachable f w -> Forall complete (portfolio w).
Proof.
  induction 1 as [w Hw|w env now form _ IH|w i _ IH|w env now _ IH _
                  |w env now _ IH].
  - eapply load_complete. by apply session_start_portfolio.
  - by apply main_add_complete.
  - unfold main_delete.
    destruct (i <? length (portfolio w))%nat; [|done].
    simpl. by apply Forall_delete.
  - destruct (main_refresh_spec env now w) as [Hall _].
    apply Forall_lookup. intros j a' Ha'.
    destruct (Forall2_lookup_r _ _ _ _ _ Hall Ha') as (a & Ha & Hr).
    eapply complete_repriced; [|exact Hr].
    by eapply (proj1 (Forall_lookup _ _) IH).
  - destruct (main_display_frame env now w) as [_ Hp]. by rewrite Hp.
Qed.

(** C1: on every ledger a session holds, after its start from any
    data file and any sequence of forms, deletions, refreshes and
    displays, computing the rows and the totals leaves every entry as
    it is: the display loop returns the ledger it was given, at every
    rate, and the display part of main changes neither the ledger of
    the session nor the data file.  (The loop is a function of the rate
    and the ledger alone.) *)
Theorem display_keeps_ledger (f : @file num) w :
  reachable f w ->
  (forall rate, (render rate (portfolio w)).1 = portfolio w)
  /\ (forall rate i a, portfolio w !! i = Some a ->
        (render rate (portfolio w)).1 !! i = Some a)
  /\ (forall env now,
        portfolio (main_display env now w).2 = portfolio w /\
        DATA_FILE (main_display env now w).2 = DATA_FILE w).
Proof.
  intros Hr. pose proof (reachable_complete f w Hr) as Hc.
  assert (Hsame : forall rate, (render rate (portfolio w)).1 = portfolio w).
  { intros rate. unfold render. by apply display_loop_complete. }
  split; [exact Hsame|]. split.
  - intros rate i a Ha. by rewrite Hsame.
  - intros env now. destruct (main_display_frame env now w) as [Hd Hp].
    split; [by apply Hp|exact Hd].
Qed.


(** X15: the placeholder of a failed stock lookup is memoised like a
    quote: for the next 300 seconds the same lookup returns it again
    without sending a request, also when the upstream service has
    recovered in the meantime. *)
Theorem placeholder_memoised env env' now now' (symbol market : str) w :
  stock_call_fails env symbol market ->
  no_fresh 300 now (stock_cache w !! (symbol, market)) ->
  (now <= now' <= now + 300)%Z ->
  get_stock_info env' now' symbol market
    (get_stock_info env now symbol market w).2
  = ({| q_name := JStr (Text.strip symbol);
        q_current_price := JNum zero;
        q_currency := if Text.eqb market HK then HKD else CNY |},
     (get_stock_info env now symbol market w).2).
Proof.
  intros Hfail Hmiss Ht.
  pose proof (stock_body_fails env symbol market w Hfail) as Hq.
  destruct (get_stock_info_cases env now symbol market w)
    as [(c & Hc & Hfr & _)|(r & _ & ->)].
  - rewrite (Hmiss c Hc) in Hfr. discriminate.
  - cbn [snd]. unfold get_stock_info at 1.
    rewrite (cache_data_hit _ _ _ _ _ _
               {| stored_at := now;
                  stored := (get_stock_info_body env symbol market w).1 |}).
    + cbn [stored]. by rewrite Hq.
    + cbn [stock_cache set_stock_cache]. apply lookup_insert_eq.
    + unfold fresh. cbn [stored_at]. apply Z.leb_le. lia.
Qed.

End Session.

(** * The further properties on concrete ledgers *)

Lemma two_stocks_sound :
  Forall (fun a => complete a /\ named a) (two_stocks (num := Q)).
Proof.
  repeat (apply List.Forall_cons || apply List.Forall_nil);
    (split; split; eexists; by vm_compute).
Qed.

Lemma two_stocks_session :
  reachable (Some two_stocks) (session_of (two_stocks (num := Q))).
Proof.
  apply reach_start. unfold session_start, load_portfolio.
  rewrite for_each_same; [reflexivity|].
  eapply Forall_impl; [exact two_stocks_sound|].
  intros a [Hc [_ [m Hm]]]. apply migrate_complete; [done|].
  by exists (JStr m).
Qed.

Lemma session_of_agrees (l : list (gmap str (jvalue Q))) :
  caches_agree (session_of l).
Proof.
  split; [intros s m c Hc _|intros s c Hc];
    cbn [stock_cache etf_cache session_of] in Hc; by rewrite lookup_empty in Hc.
Qed.

Lemma load_missing_market_witness :
  load_portfolio (Some ([domestic_stock (num := Q)] ++ marketless_stock :: []))
  = Raise (KeyError k_market).
Proof.
  apply load_missing_market.
  - apply List.Forall_cons; [|apply List.Forall_nil]. eexists. by vm_compute.
  - by vm_compute.
Defined.

Lemma save_load_round_trip_witness :
  load_portfolio (save_portfolio (two_stocks (num := Q))) = Ok two_stocks.
Proof.
  apply save_load_round_trip.
  eapply Forall_impl; [exact two_stocks_sound|].
  intros a [Hc [_ [m Hm]]]. split; [done|]. by exists (JStr m).
Defined.

Lemma render_stops_witness :
  render (num := Q) (decimal 92 2)
    ([domestic_stock] ++ shareless_stock :: [legacy_hk_stock])
  = ((ensure_fields <$> [domestic_stock])
       ++ ensure_fields shareless_stock :: [legacy_hk_stock],
     Raise (KeyError k_shares)).
Proof.
  apply render_stops.
  - apply List.Forall_cons; [|apply List.Forall_nil].
    eexists. vm_compute. reflexivity.
  - by vm_compute.
Defined.

Lemma add_accepted_witness :
  exists a,
    portfolio
      (main_add (num := Q) provider_down 0
         (stock_form (Text.utf8 "00700"%string) HK (inject_Z 100) (inject_Z 20))
         (session_of two_stocks)).2
    = two_stocks ++ [a] /\
    a !! k_symbol = Some (JStr (Text.utf8 "00700"%string)) /\
    a !! k_shares = Some (JNum (inject_Z 100)).
Proof.
  destruct (add_accepted (num := Q) provider_down 0
              (stock_form (Text.utf8 "00700"%string) HK (inject_Z 100)
                 (inject_Z 20))
              (session_of two_stocks) eq_refl ltac:(discriminate)
              eq_refl eq_refl) as (a & q & _ & H1 & H2 & _ & _ & H3 & _).
  exists a. split; [exact H1|]. split; [exact H2|exact H3].
Defined.

Lemma add_currency_agrees_witness :
  exists a,
    last (portfolio
            (main_add (num := Q) provider_down 0
               (stock_form (Text.utf8 "00700"%string) HK (inject_Z 100)
                  (inject_Z 20))
               (session_of two_stocks)).2) = Some a /\
    currency_agrees a = true.
Proof.
  apply (add_currency_agrees (num := Q) provider_down 0
           (stock_form (Text.utf8 "00700"%string) HK (inject_Z 100)
              (inject_Z 20))
           (session_of two_stocks) (session_of_agrees _)).
  - intros _. by right.
  - reflexivity.
  - discriminate.
  - reflexivity.
  - reflexivity.
Defined.

Lemma add_then_delete_witness :
  portfolio
    (main_delete 2
       (main_add (num := Q) provider_down 0
          (stock_form (Text.utf8 "00700"%string) HK (inject_Z 100)
             (inject_Z 20))
          (session_of two_stocks)).2).2
  = two_stocks.
Proof.
  apply (add_then_delete (num := Q) provider_down 0
           (stock_form (Text.utf8 "00700"%string) HK (inject_Z 100)
              (inject_Z 20))
           (session_of two_stocks)); (reflexivity || discriminate).
Defined.

Lemma refresh_frame_witness :
  Forall2 repriced (two_stocks (num := Q))
    (portfolio (main_refresh provider_down 0 (session_of two_stocks)).2).
Proof.
  apply (refresh_frame (num := Q) provider_down 0 (session_of two_stocks)).
  by vm_compute.
Defined.

Lemma refresh_outage_witness :
  exists a',
    portfolio (main_refresh (num := Q) provider_down 0
                 (session_of two_stocks)).2 !! 1%nat = Some a' /\
    a' !! k_current_price = Some (JNum zero).
Proof.
  destruct (refresh_outage (num := Q) provider_down 0
              (session_of two_stocks) [domestic_stock] [] foreign_stock
              (Text.utf8 "00700"%string) HK (inject_Z 18))
    as (a' & H1 & H2 & _).
  - reflexivity.
  - apply List.Forall_cons; [|apply List.Forall_nil].
    split; eexists; by vm_compute.
  - by vm_compute.
  - by vm_compute.
  - by vm_compute.
  - by vm_compute.
  - reflexivity.
  - eexists. by vm_compute.
  - exists ProviderError. reflexivity.
  - intros c Hc. cbn [stock_cache session_of] in Hc.
    by rewrite lookup_empty in Hc.
  - exists a'. split; [exact H1|exact H2].
Defined.


Lemma display_keeps_ledger_witness :
  (render (num := Q) (decimal 92 2) two_stocks).1 = two_stocks.
Proof.
  exact (proj1 (display_keeps_ledger (Some two_stocks) (session_of two_stocks)
                  two_stocks_session) (decimal 92 2)).
Defined.

Lemma placeholder_memoised_witness :
  get_stock_info (num := Q) (provider_rate (decimal 91 2)) 100
    (Text.utf8 "00700"%string) HK
    (get_stock_info provider_down 0 (Text.utf8 "00700"%string) HK
       empty_world).2
  = ({| q_name := JStr (Text.strip (Text.utf8 "00700"%string));
        q_current_price := JNum zero;
        q_currency := if Text.eqb HK HK then HKD else CNY |},
     (get_stock_info provider_down 0 (Text.utf8 "00700"%string) HK
        empty_world).2).
Proof.
  apply (placeholder_memoised (num := Q)).
  - exists ProviderError. reflexivity.
  - intros c Hc. discriminate Hc.
  - lia.
Defined.

Lemma delete_entry_witness :
  (main_delete (num := Q) 0 (session_of two_stocks)).1 = Deleted /\
  S (length (portfolio (main_delete 0 (session_of (two_stocks (num := Q)))).2))
  = length (two_stocks (num := Q)).
Proof.
  destruct (proj1 (delete_entry (num := Q) 0 (session_of two_stocks)))
    as (H1 & H2 & _); [simpl; lia|].
  split; [exact H1|exact H2].
Defined.

Lemma refresh_without_save_witness :
  DATA_FILE (main_refresh (num := Q) provider_down 0
               (session_of [symbolless_stock])).2
  = Some [symbolless_stock].
Proof.
  destruct (proj2 (refresh_without_save (num := Q) provider_down 0
                     (session_of [symbolless_stock])) (KeyError k_symbol))
    as (_ & H & _); [by vm_compute|exact H].
Defined.

(** C7, as stated, fails: with the cost price 1 and the current price
    10^400, two ints as a data file can hold them, the divisor is not
    zero and the division raises OverflowError; the display loop of a
    ledger with such an entry ends with that exception. *)
Lemma calculate_return_overflows :
  Python.eq0 (Python.Int 1) = false
  /\ Python.calculate_return (Python.Int 1) (Python.Int (10 ^ 400))
     = Raise OverflowError
  /\ (Python.render (Python.Float 0.92)
        [Python.holding A_SHARE CNY (Python.Int 1) (Python.Int 1)
           (Python.Int (10 ^ 400))]).2
     = Raise OverflowError.
Proof. repeat split; by vm_compute. Qed.

Lemma calculate_return_no_zero_division_witness :
  Python.calculate_return (Python.Float 100) (Python.Float 110)
  = Ok (Python.Float 10).
Proof.
  exact (proj1 (proj2 (proj2 (calculate_return_no_zero_division
                                (Python.Float 100) (Python.Float 110))))
           100%float 110%float eq_refl eq_refl).
Defined.

(** The total percentage of an int total cost too large for a float:
    the conversion raises before the division. *)
Example total_return_overflows :
  Python.total_return
    {| total_assets := Python.Float 0;
       total_investment := Python.Int (2 * 10 ^ 308);
       total_profit := Python.Float neg_infinity |}
  = Raise OverflowError.
Proof. by vm_compute. Qed.

Lemma total_return_no_zero_division_witness :
  Python.total_return
    {| total_assets := Python.Float 2028;
       total_investment := Python.Float 1920;
       total_profit := Python.Float 108 |}
  = Ok (Python.Float 5.625).
Proof.
  exact (proj1 (proj2 (proj2 (total_return_no_zero_division
           {| total_assets := Python.Float 2028;
              total_investment := Python.Float 1920;
              total_profit := Python.Float 108 |})))
           108%float 1920%float eq_refl eq_refl eq_refl).
Defined.

Lemma render_succeeds_witness :
  exists rows t r,
    Python.render (Python.Float 0.92)
      [Python.holding HK HKD (Python.Int 50) (Python.Float 20) (Python.Float 18);
       Python.holding A_SHARE CNY (Python.Int 100) (Python.Float 10)
         (Python.Int 0)]
    = (ensure_fields <$>
         [Python.holding HK HKD (Python.Int 50) (Python.Float 20)
            (Python.Float 18);
          Python.holding A_SHARE CNY (Python.Int 100) (Python.Float 10)
            (Python.Int 0)],
       Ok (rows, t)) /\
    length rows = 2%nat /\
    Python.total_return t = Ok r.
Proof.
  apply (render_succeeds (Python.Float 0.92)).
  - by exists 0.92%float.
  - repeat (apply List.Forall_cons || apply List.Forall_nil);
      (apply holding_presentable;
       [eexists; reflexivity|exact I|first [exact I|reflexivity]]).
Defined.
